(** * Mood Tracker backend: a shallow embedding of [backend/server.py]

    The service keeps mood entries in one MongoDB collection and exposes
    create / list / get / update / delete handlers plus a CSV export and a
    statistics view.  This development embeds:

    - documents as Python dicts ([gmap string Value]);
    - the collection as the list of stored documents, in insertion order,
      with the collection operations the handlers call ([find_one],
      [insert_one], [update_one], [delete_one], [find().sort], [aggregate]);
    - the handlers as computations in a state-and-exception monad over the
      collection, with their [try]/[except] blocks;
    - the library functions the handlers rely on ([date.isoformat],
      [str.title], [csv.writer], the response model constructor).

    Inputs drawn from the environment ([uuid.uuid4()], [datetime.utcnow()],
    the ObjectId the driver generates) are explicit arguments of the
    handlers.  Text is modelled as byte strings; case mapping acts on the
    ASCII letters, as [str] does on ASCII text.  The collection keeps instants
    to the millisecond, as BSON dates do, and its operations do not fail;
    [str] of an [HTTPException] is its status code, a colon and its
    detail. *)

From Stdlib Require Import Ascii String NArith Sorting.Sorted Lia.
From stdpp Require Import gmap strings pretty list fin_maps sorting.

Local Open Scope N_scope.

(** ** Calendar dates and instants *)

Module Calendar.

(** [datetime.date]: plain year / month / day. *)
Record date := Date { year : N; month : N; day : N }.

(** [datetime.datetime] (naive, as [utcnow] returns it). *)
Record datetime := Datetime {
  dt_date : date; hour : N; minute : N; second : N; microsecond : N }.

Definition is_leap (y : N) : bool :=
  ((y mod 4 =? 0) && negb (y mod 100 =? 0)) || (y mod 400 =? 0).

Definition days_in_month (y m : N) : N :=
  if m =? 2 then (if is_leap y then 29 else 28)
  else if (m =? 4) || (m =? 6) || (m =? 9) || (m =? 11) then 30
  else 31.

(** The range a [datetime.date] object can hold (MINYEAR = 1, MAXYEAR = 9999). *)
Definition valid_date (d : date) : bool :=
  (1 <=? year d) && (year d <=? 9999) &&
  (1 <=? month d) && (month d <=? 12) &&
  (1 <=? day d) && (day d <=? days_in_month (year d) (month d)).

Definition valid_datetime (t : datetime) : bool :=
  valid_date (dt_date t) && (hour t <? 24) && (minute t <? 60) &&
  (second t <? 60) && (microsecond t <? 1000000).

(** The instant with its microseconds cut down to whole milliseconds. *)
Definition truncate_ms (t : datetime) : datetime :=
  Datetime (dt_date t) (hour t) (minute t) (second t)
           (microsecond t / 1000 * 1000).

(** Comparison of [date] objects: lexicographic on (year, month, day). *)
Definition date_compare (a b : date) : comparison :=
  match year a ?= year b with
  | Eq => match month a ?= month b with
          | Eq => day a ?= day b
          | c => c
          end
  | c => c
  end.

Definition date_le (a b : date) : Prop := date_compare a b <> Gt.

Definition datetime_compare (a b : datetime) : comparison :=
  match date_compare (dt_date a) (dt_date b) with
  | Eq => match hour a ?= hour b with
          | Eq => match minute a ?= minute b with
                  | Eq => match second a ?= second b with
                          | Eq => microsecond a ?= microsecond b
                          | c => c
                          end
                  | c => c
                  end
          | c => c
          end
  | c => c
  end.

(** Decimal digits, zero padded: the ["%02d"], ["%04d"], ["%06d"] of
    [isoformat] on fields that are in range. *)
Definition digit (n : N) : ascii := ascii_of_N (48 + n mod 10).

Definition pad2 (n : N) (k : string) : string :=
  String (digit (n / 10)) (String (digit n) k).

Definition pad4 (n : N) (k : string) : string :=
  String (digit (n / 1000)) (String (digit (n / 100)) (pad2 n k)).

Definition pad6 (n : N) (k : string) : string :=
  String (digit (n / 100000)) (String (digit (n / 10000)) (pad4 n k)).

(** [date.isoformat()]: YYYY-MM-DD. *)
Definition date_isoformat_k (d : date) (k : string) : string :=
  pad4 (year d) (String "-" (pad2 (month d) (String "-" (pad2 (day d) k)))).

Definition date_isoformat (d : date) : string := date_isoformat_k d "".

(** [datetime.isoformat(sep)]: the date, the separator, HH:MM:SS and, when
    the microsecond field is not zero, a dot and six digits. *)
Definition datetime_format (sep : ascii) (t : datetime) : string :=
  date_isoformat_k (dt_date t)
    (String sep (pad2 (hour t) (String ":" (pad2 (minute t) (String ":"
       (pad2 (second t)
          (if microsecond t =? 0 then ""
           else String "." (pad6 (microsecond t) "")))))))).

Definition datetime_isoformat : datetime -> string := datetime_format "T".

(** [str(datetime)] is [isoformat(sep=' ')]. *)
Definition datetime_str : datetime -> string := datetime_format " ".

Definition is_digit (c : ascii) : bool :=
  (48 <=? N_of_ascii c) && (N_of_ascii c <=? 57).

Definition digit_val (c : ascii) : N := N_of_ascii c - 48.

(** Validation of a [date] field from a string: exactly YYYY-MM-DD with a
    date that exists. *)
Definition parse_date (s : string) : option date :=
  match s with
  | String y1 (String y2 (String y3 (String y4 (String "-"
      (String m1 (String m2 (String "-" (String d1 (String d2 ""))))))))) =>
      if forallb is_digit [y1; y2; y3; y4; m1; m2; d1; d2] then
        let d := Date (1000 * digit_val y1 + 100 * digit_val y2
                       + 10 * digit_val y3 + digit_val y4)
                      (10 * digit_val m1 + digit_val m2)
                      (10 * digit_val d1 + digit_val d2) in
        if valid_date d then Some d else None
      else None
  | _ => None
  end.

End Calendar.
Export Calendar.

(** ** Text: the [str] methods and the [csv] writer the handlers use *)

Module Text.

Definition is_upper (c : ascii) : bool :=
  (65 <=? N_of_ascii c) && (N_of_ascii c <=? 90).

Definition is_lower (c : ascii) : bool :=
  (97 <=? N_of_ascii c) && (N_of_ascii c <=? 122).

Definition is_cased (c : ascii) : bool := is_upper c || is_lower c.

Definition upper (c : ascii) : ascii :=
  if is_lower c then ascii_of_N (N_of_ascii c - 32) else c.

Definition lower (c : ascii) : ascii :=
  if is_upper c then ascii_of_N (N_of_ascii c + 32) else c.

(** [str.title()] on ASCII text: a cased character that follows an uncased
    one (or starts the string) is upper-cased, every other cased character
    is lower-cased, uncased characters are copied.  Bytes outside ASCII are
    copied as uncased; [str.title()] cases the letters they encode, so the
    two agree on ASCII text only. *)
Fixpoint title_from (previous_is_cased : bool) (s : string) : string :=
  match s with
  | EmptyString => EmptyString
  | String c s' =>
      if is_cased c
      then String (if previous_is_cased then lower c else upper c)
                  (title_from true s')
      else String c (title_from false s')
  end.

Definition title (s : string) : string := title_from false s.

(** [s.replace(old, new)] for one-character [old] and [new]. *)
Fixpoint replace (old new : ascii) (s : string) : string :=
  match s with
  | EmptyString => EmptyString
  | String c s' => String (if Ascii.eqb c old then new else c) (replace old new s')
  end.

(** [sub in s]. *)
Fixpoint contains (sub s : string) : bool :=
  String.prefix sub s ||
  match s with
  | EmptyString => false
  | String _ s' => contains sub s'
  end.

(** Decimal rendering of a number ([str(int)]). *)
Definition str_N (n : N) : string := pretty n.

Definition comma : ascii := ascii_of_N 44.
Definition dquote : ascii := ascii_of_N 34.
Definition CR : ascii := ascii_of_N 13.
Definition LF : ascii := ascii_of_N 10.
Definition CRLF : string := String CR (String LF EmptyString).

(** The [csv.writer] of the default ("excel") dialect: delimiter [,], the
    double quote as quote character, doubled inside a quoted field, minimal
    quoting, line terminator CR LF. *)
Definition is_special (c : ascii) : bool :=
  Ascii.eqb c comma || Ascii.eqb c dquote || Ascii.eqb c CR || Ascii.eqb c LF.

Fixpoint needs_quote (f : string) : bool :=
  match f with
  | EmptyString => false
  | String c f' => is_special c || needs_quote f'
  end.

Fixpoint escape (f : string) : string :=
  match f with
  | EmptyString => EmptyString
  | String c f' =>
      if Ascii.eqb c dquote then String dquote (String dquote (escape f'))
      else String c (escape f')
  end.

Definition quote_field (f : string) : string :=
  if needs_quote f
  then String dquote (String.append (escape f) (String dquote EmptyString))
  else f.

Fixpoint join_fields (fs : list string) : string :=
  match fs with
  | [] => EmptyString
  | [f] => quote_field f
  | f :: fs' => String.append (quote_field f) (String comma (join_fields fs'))
  end.

(** A row made of one empty field is written as a quoted empty field. *)
Definition render_row (fs : list string) : string :=
  match fs with
  | [EmptyString] => String dquote (String dquote CRLF)
  | _ => String.append (join_fields fs) CRLF
  end.

(** [writer.writerow(row)] on a writer over the [io.StringIO] buffer [output]. *)
Definition writerow (output : string) (row : list string) : string :=
  String.append output (render_row row).


(** Records of a CSV text, as a reader of the same dialect delimits them:
    the line terminators that are not inside a quoted field.  [in_quotes]
    flips at every quote character (a doubled quote flips twice). *)
Fixpoint count_records_from (in_quotes : bool) (s : string) : nat :=
  match s with
  | EmptyString => 0%nat
  | String c s' =>
      if Ascii.eqb c dquote then count_records_from (negb in_quotes) s'
      else if Ascii.eqb c LF && negb in_quotes
           then S (count_records_from in_quotes s')
           else count_records_from in_quotes s'
  end.

Definition count_records (s : string) : nat := count_records_from false s.

End Text.

(** ** Documents and the collection *)

Module Mongo.

(** The values the handlers put in, and read from, a document. *)
Inductive Value :=
  | VNone
  | VStr (s : string)
  | VObjectId (hex : string)
  | VDatetime (t : datetime).

#[global] Instance date_eq_dec : EqDecision date.
Proof. solve_decision. Defined.

#[global] Instance datetime_eq_dec : EqDecision datetime.
Proof. solve_decision. Defined.

#[global] Instance Value_eq_dec : EqDecision Value.
Proof. solve_decision. Defined.

(** A document is a Python dict with string keys. *)
Abbreviation Doc := (gmap string Value).

(** The collection: the stored documents in insertion (natural) order. *)
Abbreviation Collection := (list (gmap string Value)).

(** BSON comparison order across types: Null < String < ObjectId < Date. *)
Definition bson_rank (v : Value) : N :=
  match v with
  | VNone => 0
  | VStr _ => 1
  | VObjectId _ => 2
  | VDatetime _ => 3
  end.

Definition bson_compare (a b : Value) : comparison :=
  match a, b with
  | VStr x, VStr y => String.compare x y
  | VObjectId x, VObjectId y => String.compare x y
  | VDatetime x, VDatetime y => datetime_compare x y
  | _, _ => bson_rank a ?= bson_rank b
  end.

Definition bson_leb (a b : Value) : bool :=
  match bson_compare a b with
  | Gt => false
  | _ => true
  end.

(** The value a document is sorted or grouped by: a missing field counts
    as null. *)
Definition field (k : string) (d : Doc) : Value := default VNone (d !! k).

(** The filter [{k: v}]. *)
Definition matches (k : string) (v : Value) (d : Doc) : bool :=
  bool_decide (d !! k = Some v).

(** [find_one({k: v})]: the first matching document, or [None]. *)
Definition find_one (k : string) (v : Value) (c : Collection) : option Doc :=
  List.find (matches k v) c.

(** What the collection keeps of a value: a BSON date counts milliseconds,
    so an instant is stored, and read back, without its microseconds below
    the millisecond; the other values are kept as they are. *)
Definition bson_value (v : Value) : Value :=
  match v with
  | VDatetime t => VDatetime (truncate_ms t)
  | _ => v
  end.

Definition bson_doc (d : Doc) : Doc := bson_value <$> d.

(** [insert_one(doc)]: the driver adds a generated [_id] to the dict it is
    given when it has none, and the encoded document is appended.  The dict
    with the [_id] is returned because the caller's dict is that same
    object; its values are the caller's, not the encoded ones. *)
Definition insert_one (oid : string) (doc : Doc) (c : Collection)
  : Doc * Collection :=
  let doc' := match doc !! "_id" with
              | Some _ => doc
              | None => <["_id" := VObjectId oid]> doc
              end in
  (doc', c ++ [bson_doc doc']).

(** [update_one({k: v}, {"$set": upd})]: the fields of [upd], encoded,
    overwrite those of the first matching document. *)
Fixpoint update_one (k : string) (v : Value) (upd : Doc) (c : Collection)
  : Collection :=
  match c with
  | [] => []
  | d :: c' => if matches k v d then (bson_doc upd ∪ d) :: c'
               else d :: update_one k v upd c'
  end.

(** [delete_one({k: v})]: removes the first matching document; the result
    carries [deleted_count]. *)
Fixpoint delete_one (k : string) (v : Value) (c : Collection)
  : N * Collection :=
  match c with
  | [] => (0, [])
  | d :: c' => if matches k v d then (1, c')
               else let '(n, c'') := delete_one k v c' in (n, d :: c'')
  end.

(** [find({}).sort(k, -1)]: all documents, descending on field [k]. *)
Definition descending (k : string) (d1 d2 : Doc) : Prop :=
  bson_leb (field k d2) (field k d1) = true.

#[global] Instance descending_dec k d1 d2 : Decision (descending k d1 d2).
Proof. unfold descending. apply _. Defined.

Definition find_sort_desc (k : string) (c : Collection) : Collection :=
  merge_sort (descending k) c.

(** [count_documents({})]. *)
Definition count_documents (c : Collection) : N := N.of_nat (length c).

(** One result of the [$group] stage. *)
Record GroupResult := { _id : Value; count : N }.

(** [{"$group": {"_id": "$k", "count": {"$sum": 1}}}]: one result per
    distinct value of field [k], in order of first occurrence. *)
Fixpoint group_add (key : Value) (acc : list GroupResult) : list GroupResult :=
  match acc with
  | [] => [{| _id := key; count := 1 |}]
  | g :: acc' =>
      if decide (_id g = key)
      then {| _id := _id g; count := count g + 1 |} :: acc'
      else g :: group_add key acc'
  end.

Definition group_count (k : string) (c : Collection) : list GroupResult :=
  fold_left (fun acc d => group_add (field k d) acc) c [].

(** [{"$sort": {"count": -1}}]. *)
Definition count_descending (g1 g2 : GroupResult) : Prop := count g2 <= count g1.

#[global] Instance count_descending_dec g1 g2 : Decision (count_descending g1 g2).
Proof. unfold count_descending. apply _. Defined.

Definition aggregate_group_sort (k : string) (c : Collection) : list GroupResult :=
  merge_sort count_descending (group_count k c).

End Mongo.
Export Mongo.

(** ** The handlers of [server.py] *)

Module Server.

(** *** Exceptions *)

Inductive exn :=
  | HTTPException (status_code : N) (detail : string)
  | ValidationError (msg : string)
  | KeyError (key : string)
  | AttributeError (msg : string).

(** [str(e)].  An [HTTPException] prints as its status code, a colon and
    its detail. *)
Definition str_exn (e : exn) : string :=
  match e with
  | HTTPException status_code detail => Text.str_N status_code +:+ ": " +:+ detail
  | ValidationError msg => msg
  | KeyError key => "'" +:+ key +:+ "'"
  | AttributeError msg => msg
  end.

(** *** Computations over the collection that may raise *)

Inductive outcome (A : Type) :=
  | Return (a : A)
  | Raise (e : exn).
Arguments Return {A} a.
Arguments Raise {A} e.

Definition M (A : Type) : Type := Collection -> Collection * outcome A.

#[global] Instance M_ret : MRet M := fun A a c => (c, Return a).

#[global] Instance M_bind : MBind M := fun A B f m c =>
  match m c with
  | (c', Return a) => f a c'
  | (c', Raise e) => (c', Raise e)
  end.

Definition raise {A} (e : exn) : M A := fun c => (c, Raise e).

(** [try: body / except Exception as e: handler(e)]. *)
Definition try_except {A} (body : M A) (handler : exn -> M A) : M A := fun c =>
  match body c with
  | (c', Return a) => (c', Return a)
  | (c', Raise e) => handler e c'
  end.

Definition of_outcome {A} (o : outcome A) : M A := fun c => (c, o).

(** [for x in xs: ys.append(f(x))]. *)
Fixpoint for_each {A B} (f : A -> outcome B) (xs : list A) : outcome (list B) :=
  match xs with
  | [] => Return []
  | x :: xs' =>
      match f x with
      | Raise e => Raise e
      | Return y =>
          match for_each f xs' with
          | Raise e => Raise e
          | Return ys => Return (y :: ys)
          end
      end
  end.

(** The collection operations, awaited. *)
Definition db_find_one (k : string) (v : Value) : M (option Doc) :=
  fun c => (c, Return (find_one k v c)).

Definition db_insert_one (oid : string) (doc : Doc) : M Doc :=
  fun c => let '(doc', c') := insert_one oid doc c in (c', Return doc').

Definition db_update_one (k : string) (v : Value) (upd : Doc) : M unit :=
  fun c => (update_one k v upd c, Return tt).

Definition db_delete_one (k : string) (v : Value) : M N :=
  fun c => let '(n, c') := delete_one k v c in (c', Return n).

Definition db_find_sort_desc (k : string) : M (list Doc) :=
  fun c => (c, Return (find_sort_desc k c)).

Definition db_count_documents : M N :=
  fun c => (c, Return (count_documents c)).

Definition db_aggregate_group_sort (k : string) : M (list GroupResult) :=
  fun c => (c, Return (aggregate_group_sort k c)).

(** Truth value of [find_one]'s result: [None] and the empty dict are false. *)
Definition truthy (o : option Doc) : bool :=
  match o with
  | None => false
  | Some d => negb (bool_decide (d = ∅))
  end.

(** *** Pydantic models *)

Module MoodEntry.
Record t := {
  date : Calendar.date;
  mood_type : string;
  emoji : string;
  notes : option string
}.
End MoodEntry.

Module MoodEntryResponse.
Record t := {
  id : string;
  date : Calendar.date;
  mood_type : string;
  emoji : string;
  notes : string;
  timestamp : datetime
}.
End MoodEntryResponse.

(** [x or s] with [s] the empty string, on an optional string. *)
Definition or_empty (x : option string) : string :=
  match x with
  | None => ""
  | Some "" => ""
  | Some s => s
  end.

(** Validation of one field, for the values the handlers store: a string
    for a [str] field, an ISO date string for a [date] field, an instant
    for a [datetime] field.  (The library converts some further values,
    such as a date-time string; no document the handlers write has one.) *)
Definition str_field (kw : Doc) (k : string) : outcome string :=
  match kw !! k with
  | Some (VStr s) => Return s
  | Some _ => Raise (ValidationError (k +:+ ": str type expected"))
  | None => Raise (ValidationError (k +:+ ": field required"))
  end.

Definition date_field (kw : Doc) (k : string) : outcome Calendar.date :=
  match kw !! k with
  | Some (VStr s) =>
      match parse_date s with
      | Some d => Return d
      | None => Raise (ValidationError (k +:+ ": invalid date format"))
      end
  | Some _ => Raise (ValidationError (k +:+ ": invalid date format"))
  | None => Raise (ValidationError (k +:+ ": field required"))
  end.

Definition datetime_field (kw : Doc) (k : string) : outcome datetime :=
  match kw !! k with
  | Some (VDatetime t) => Return t
  | Some _ => Raise (ValidationError (k +:+ ": invalid datetime format"))
  | None => Raise (ValidationError (k +:+ ": field required"))
  end.

Definition obind {A B} (o : outcome A) (f : A -> outcome B) : outcome B :=
  match o with
  | Return a => f a
  | Raise e => Raise e
  end.

(** The constructor [MoodEntryResponse] applied to keyword arguments: every
    declared field is validated; keys that are not fields of the model are
    ignored. *)
Definition MoodEntryResponse_new (kw : Doc) : outcome MoodEntryResponse.t :=
  obind (str_field kw "id") (fun id =>
  obind (date_field kw "date") (fun date =>
  obind (str_field kw "mood_type") (fun mood_type =>
  obind (str_field kw "emoji") (fun emoji =>
  obind (str_field kw "notes") (fun notes =>
  obind (datetime_field kw "timestamp") (fun timestamp =>
  Return {| MoodEntryResponse.id := id;
            MoodEntryResponse.date := date;
            MoodEntryResponse.mood_type := mood_type;
            MoodEntryResponse.emoji := emoji;
            MoodEntryResponse.notes := notes;
            MoodEntryResponse.timestamp := timestamp |})))))).

(** The JSON object a [response_model=MoodEntryResponse] route sends: the
    declared fields of the model, dates and instants in ISO format. *)
Definition response_json (r : MoodEntryResponse.t) : gmap string string :=
  {[ "id" := MoodEntryResponse.id r;
     "date" := date_isoformat (MoodEntryResponse.date r);
     "mood_type" := MoodEntryResponse.mood_type r;
     "emoji" := MoodEntryResponse.emoji r;
     "notes" := MoodEntryResponse.notes r;
     "timestamp" := datetime_isoformat (MoodEntryResponse.timestamp r) ]}.

(** *** Available moods *)

Record MoodOption := { type : string; emoji : string; label : string }.

Definition MOOD_OPTIONS : list MoodOption := [
  {| type := "very_happy"; emoji := "üòÑ"; label := "Very Happy" |};
  {| type := "happy"; emoji := "üòä"; label := "Happy" |};
  {| type := "content"; emoji := "üòå"; label := "Content" |};
  {| type := "neutral"; emoji := "üòê"; label := "Neutral" |};
  {| type := "sad"; emoji := "üòî"; label := "Sad" |};
  {| type := "very_sad"; emoji := "üò¢"; label := "Very Sad" |};
  {| type := "angry"; emoji := "üò§"; label := "Angry" |};
  {| type := "anxious"; emoji := "üò∞"; label := "Anxious" |};
  {| type := "tired"; emoji := "üò¥"; label := "Tired" |};
  {| type := "excited"; emoji := "ü§©"; label := "Excited" |}
].

Definition get_mood_options : list MoodOption := MOOD_OPTIONS.

(** *** GET / *)

Definition root : gmap string string := {[ "message" := "Mood Tracker API" ]}.

(** *** POST /api/moods *)

Definition create_mood_entry (uuid4 : string) (utcnow : datetime) (oid : string)
    (mood : MoodEntry.t) : M MoodEntryResponse.t :=
  try_except
    (existing_mood ← db_find_one "date" (VStr (date_isoformat (MoodEntry.date mood)));
     if truthy existing_mood
     then raise (HTTPException 400 "Mood entry already exists for this date")
     else
       let mood_dict : Doc :=
         {[ "id" := VStr uuid4;
            "date" := VStr (date_isoformat (MoodEntry.date mood));
            "mood_type" := VStr (MoodEntry.mood_type mood);
            "emoji" := VStr (MoodEntry.emoji mood);
            "notes" := VStr (or_empty (MoodEntry.notes mood));
            "timestamp" := VDatetime utcnow ]} in
       mood_dict ← db_insert_one oid mood_dict;
       of_outcome (MoodEntryResponse_new mood_dict))
    (fun e =>
       if Text.contains "already exists" (str_exn e) then raise e
       else raise (HTTPException 500 ("Error creating mood entry: " +:+ str_exn e))).

(** [except HTTPException: raise / except Exception as e: raise
    HTTPException(500, prefix + str(e))]. *)
Definition reraise_http {A} (prefix : string) (e : exn) : M A :=
  match e with
  | HTTPException _ _ => raise e
  | _ => raise (HTTPException 500 (prefix +:+ str_exn e))
  end.

(** *** GET /api/moods *)

Definition get_mood_entries : M (list MoodEntryResponse.t) :=
  try_except
    (cursor ← db_find_sort_desc "date";
     of_outcome
       (for_each (fun mood => let mood := delete "_id" mood in
                              MoodEntryResponse_new mood) cursor))
    (fun e => raise (HTTPException 500 ("Error fetching mood entries: " +:+ str_exn e))).

(** *** GET /api/moods/{mood_id} *)

Definition get_mood_entry (mood_id : string) : M MoodEntryResponse.t :=
  try_except
    (mood ← db_find_one "id" (VStr mood_id);
     if negb (truthy mood)
     then raise (HTTPException 404 "Mood entry not found")
     else
       match mood with
       | Some mood => let mood := delete "_id" mood in
                      of_outcome (MoodEntryResponse_new mood)
       | None => raise (AttributeError "'NoneType' object has no attribute 'pop'")
       end)
    (reraise_http "Error fetching mood entry: ").

(** *** PUT /api/moods/{mood_id} *)

Definition update_mood_entry (utcnow : datetime) (mood_id : string)
    (mood : MoodEntry.t) : M MoodEntryResponse.t :=
  try_except
    (existing_mood ← db_find_one "id" (VStr mood_id);
     if negb (truthy existing_mood)
     then raise (HTTPException 404 "Mood entry not found")
     else
       let updated_mood : Doc :=
         {[ "mood_type" := VStr (MoodEntry.mood_type mood);
            "emoji" := VStr (MoodEntry.emoji mood);
            "notes" := VStr (or_empty (MoodEntry.notes mood));
            "timestamp" := VDatetime utcnow ]} in
       _ ← db_update_one "id" (VStr mood_id) updated_mood;
       updated_mood_doc ← db_find_one "id" (VStr mood_id);
       match updated_mood_doc with
       | Some doc => let doc := delete "_id" doc in
                     of_outcome (MoodEntryResponse_new doc)
       | None => raise (AttributeError "'NoneType' object has no attribute 'pop'")
       end)
    (reraise_http "Error updating mood entry: ").

(** *** DELETE /api/moods/{mood_id} *)

Definition delete_mood_entry (mood_id : string) : M (gmap string string) :=
  try_except
    (deleted_count ← db_delete_one "id" (VStr mood_id);
     if deleted_count =? 0
     then raise (HTTPException 404 "Mood entry not found")
     else mret {[ "message" := "Mood entry deleted successfully" ]})
    (reraise_http "Error deleting mood entry: ").

(** *** GET /api/moods/export/csv *)

Definition getitem (d : Doc) (k : string) : outcome Value :=
  match d !! k with
  | Some v => Return v
  | None => Raise (KeyError k)
  end.

(** How the writer turns a cell into text: [None] is the empty string, a
    string is itself, anything else goes through [str]. *)
Definition csv_str (v : Value) : string :=
  match v with
  | VNone => ""
  | VStr s => s
  | VObjectId hex => hex
  | VDatetime t => datetime_str t
  end.

Definition export_row (mood : Doc) : outcome (list string) :=
  obind (getitem mood "date") (fun date =>
  obind (getitem mood "mood_type") (fun mood_type =>
  obind (match mood_type with
         | VStr s => Return (Text.title (Text.replace "_" " " s))
         | _ => Raise (AttributeError "object has no attribute 'replace'")
         end) (fun mood_title =>
  obind (getitem mood "emoji") (fun emoji =>
  obind (getitem mood "notes") (fun notes =>
  obind (getitem mood "timestamp") (fun timestamp =>
  Return [ csv_str date; mood_title; csv_str emoji; csv_str notes;
           match timestamp with
           | VDatetime t => datetime_isoformat t
           | v => csv_str v
           end ])))))).

(** [async for mood in cursor: writer.writerow([...])] over the buffer. *)
Fixpoint write_rows (output : string) (cursor : list Doc) : outcome string :=
  match cursor with
  | [] => Return output
  | mood :: cursor' =>
      obind (export_row mood) (fun row =>
      write_rows (Text.writerow output row) cursor')
  end.

Record StreamingResponse := {
  body : string;
  media_type : string;
  headers : list (string * string)
}.

Definition export_moods_csv : M StreamingResponse :=
  try_except
    (cursor ← db_find_sort_desc "date";
     let output := "" in
     let output := Text.writerow output ["Date"; "Mood"; "Emoji"; "Notes"; "Timestamp"] in
     output ← of_outcome (write_rows output cursor);
     mret {| body := output;
             media_type := "text/csv";
             headers := [("Content-Disposition",
                          "attachment; filename=mood_tracker_export.csv")] |})
    (fun e => raise (HTTPException 500 ("Error exporting mood data: " +:+ str_exn e))).

(** *** GET /api/stats *)

Module MoodStat.
Record t := { mood_type : Value; count : N; emoji : string; label : string }.
End MoodStat.

Module Stats.
Record t := { total_entries : N; mood_distribution : list MoodStat.t }.
End Stats.

(** [next((m for m in MOOD_OPTIONS if m["type"] == key), None)]. *)
Definition mood_info_for (key : Value) : option MoodOption :=
  List.find (fun m => bool_decide (VStr (type m) = key)) MOOD_OPTIONS.

Definition placeholder_emoji : string := "‚ùì".

Definition stat_of (result : GroupResult) : outcome MoodStat.t :=
  let mood_info := mood_info_for (_id result) in
  let emoji := match mood_info with
               | Some m => emoji m
               | None => placeholder_emoji
               end in
  obind (match mood_info with
         | Some m => Return (label m)
         | None => match _id result with
                   | VStr s => Return (Text.title s)
                   | _ => Raise (AttributeError "object has no attribute 'title'")
                   end
         end) (fun label =>
  Return {| MoodStat.mood_type := _id result;
            MoodStat.count := count result;
            MoodStat.emoji := emoji;
            MoodStat.label := label |}).

Definition get_mood_stats : M Stats.t :=
  try_except
    (total_entries ← db_count_documents;
     results ← db_aggregate_group_sort "mood_type";
     mood_distribution ← of_outcome (for_each stat_of results);
     mret {| Stats.total_entries := total_entries;
             Stats.mood_distribution := mood_distribution |})
    (fun e => raise (HTTPException 500 ("Error fetching mood stats: " +:+ str_exn e))).

End Server.
Export Server.

(** ** Vocabulary of the statements *)

(** The document the collection holds for an entry: the six fields the
    handlers write plus the driver's [_id]. *)
Definition doc_of (oid : string) (r : MoodEntryResponse.t) : Doc :=
  {[ "_id" := VObjectId oid;
     "id" := VStr (MoodEntryResponse.id r);
     "date" := VStr (date_isoformat (MoodEntryResponse.date r));
     "mood_type" := VStr (MoodEntryResponse.mood_type r);
     "emoji" := VStr (MoodEntryResponse.emoji r);
     "notes" := VStr (MoodEntryResponse.notes r);
     "timestamp" := VDatetime (MoodEntryResponse.timestamp r) ]}.

(** A stored entry: the [_id] the driver gave it and its six fields. *)
Abbreviation Entry := (string * MoodEntryResponse.t)%type.

Definition store_of (es : list Entry) : Collection :=
  map (fun e => doc_of (fst e) (snd e)) es.

Definition valid_entry (e : Entry) : Prop :=
  valid_date (MoodEntryResponse.date (snd e)) = true.

(** An entry as the collection keeps it. *)
Definition stored_entry (r : MoodEntryResponse.t) : MoodEntryResponse.t :=
  {| MoodEntryResponse.id := MoodEntryResponse.id r;
     MoodEntryResponse.date := MoodEntryResponse.date r;
     MoodEntryResponse.mood_type := MoodEntryResponse.mood_type r;
     MoodEntryResponse.emoji := MoodEntryResponse.emoji r;
     MoodEntryResponse.notes := MoodEntryResponse.notes r;
     MoodEntryResponse.timestamp := truncate_ms (MoodEntryResponse.timestamp r) |}.

(** The entry a create request makes, and the one an update request leaves. *)
Definition created (uuid4 : string) (utcnow : datetime) (mood : MoodEntry.t)
  : MoodEntryResponse.t :=
  {| MoodEntryResponse.id := uuid4;
     MoodEntryResponse.date := MoodEntry.date mood;
     MoodEntryResponse.mood_type := MoodEntry.mood_type mood;
     MoodEntryResponse.emoji := MoodEntry.emoji mood;
     MoodEntryResponse.notes := default "" (MoodEntry.notes mood);
     MoodEntryResponse.timestamp := utcnow |}.

Definition updated (utcnow : datetime) (mood : MoodEntry.t)
    (r : MoodEntryResponse.t) : MoodEntryResponse.t :=
  {| MoodEntryResponse.id := MoodEntryResponse.id r;
     MoodEntryResponse.date := MoodEntryResponse.date r;
     MoodEntryResponse.mood_type := MoodEntry.mood_type mood;
     MoodEntryResponse.emoji := MoodEntry.emoji mood;
     MoodEntryResponse.notes := default "" (MoodEntry.notes mood);
     MoodEntryResponse.timestamp := truncate_ms utcnow |}.

(** No document of [c] has value [v] in field [k]. *)
Definition absent (k : string) (v : Value) (c : Collection) : Prop :=
  Forall (fun d => d !! k <> Some v) c.

#[global] Instance absent_dec k v c : Decision (absent k v c).
Proof. unfold absent. apply _. Defined.

(** Requests that change the collection, with what the environment supplied
    to each. *)
Inductive request :=
  | Create (uuid4 : string) (utcnow : datetime) (oid : string) (mood : MoodEntry.t)
  | Update (utcnow : datetime) (mood_id : string) (mood : MoodEntry.t)
  | Delete (mood_id : string).

Definition step (c : Collection) (req : request) : Collection :=
  match req with
  | Create uuid4 utcnow oid mood => fst (create_mood_entry uuid4 utcnow oid mood c)
  | Update utcnow mood_id mood => fst (update_mood_entry utcnow mood_id mood c)
  | Delete mood_id => fst (delete_mood_entry mood_id c)
  end.

(** A request body has been validated: its date is a date. *)
Definition valid_request (req : request) : Prop :=
  match req with
  | Create _ _ _ mood | Update _ _ mood => valid_date (MoodEntry.date mood) = true
  | Delete _ => True
  end.

(** The collections reachable from the empty one, one request after another. *)
Inductive reachable : Collection -> Prop :=
  | reachable_empty : reachable []
  | reachable_step c req :
      reachable c -> valid_request req -> reachable (step c req).

(** The dates held by a collection, document by document. *)
Definition dates (c : Collection) : list (option Value) :=
  map (fun d : Doc => d !! "date") c.

(** The notes of a document are a string. *)
Definition has_notes (d : Doc) : Prop := exists s, d !! "notes" = Some (VStr s).

(** The row the export writes for an entry. *)
Definition csv_row (r : MoodEntryResponse.t) : list string :=
  [ date_isoformat (MoodEntryResponse.date r);
    Text.title (Text.replace "_" " " (MoodEntryResponse.mood_type r));
    MoodEntryResponse.emoji r;
    MoodEntryResponse.notes r;
    datetime_isoformat (MoodEntryResponse.timestamp r) ].

Definition csv_header : list string :=
  ["Date"; "Mood"; "Emoji"; "Notes"; "Timestamp"].

(** The text of a CSV document: its rows, one after the other. *)
Fixpoint csv_text (rows : list (list string)) : string :=
  match rows with
  | [] => EmptyString
  | row :: rows' => String.append (Text.render_row row) (csv_text rows')
  end.




(** Newest date first. *)
Definition newest_first (a b : MoodEntryResponse.t) : Prop :=
  date_le (MoodEntryResponse.date b) (MoodEntryResponse.date a).


(** How often a value occurs in a list. *)
Definition occurrences (v : Value) (vs : list Value) : nat :=
  length (filter (fun x => x = v) vs).

(** The count a list of group results gives for a key (0 when the key has
    no result). *)
Definition count_for (v : Value) (gs : list GroupResult) : N :=
  match List.find (fun g => bool_decide (_id g = v)) gs with
  | Some g => count g
  | None => 0
  end.

(** The statistics line for mood type [t] counted [n] times. *)
Definition mood_stat (t : string) (n : N) : MoodStat.t :=
  {| MoodStat.mood_type := VStr t;
     MoodStat.count := n;
     MoodStat.emoji := match mood_info_for (VStr t) with
                       | Some m => emoji m
                       | None => placeholder_emoji
                       end;
     MoodStat.label := match mood_info_for (VStr t) with
                       | Some m => label m
                       | None => Text.title t
                       end |}.

Definition key_str (v : Value) : string :=
  match v with
  | VStr s => s
  | _ => EmptyString
  end.


(** The fields of the response model. *)
Definition public_fields : gset string :=
  {[ "id"; "date"; "mood_type"; "emoji"; "notes"; "timestamp" ]}.

(** A value as JSON text. *)
Definition json_of_value (v : Value) : string :=
  match v with
  | VNone => "null"
  | VStr s => s
  | VObjectId hex => hex
  | VDatetime t => datetime_isoformat t
  end.

(** What a document shows when only the fields of the response model are
    sent: those fields, with the values the document has for them. *)
Definition public_view (d : Doc) : gmap string string :=
  json_of_value <$> filter (fun kv => kv.1 ∈ public_fields) d.

(** The response sent for [r] shows the document [d], which carries an
    [_id]: it has the six public fields, each with the value [d] has for
    it, and nothing else of [d]. *)
Definition shows (r : MoodEntryResponse.t) (d : Doc) : Prop :=
  "_id" ∈ dom d /\
  response_json r = public_view d /\
  dom (response_json r) = public_fields /\
  response_json r !! "_id" = None.

(** ** Vocabulary of the further properties *)

(** An outcome is a value or an [HTTPException] whose status is one of
    [statuses]. *)
Definition raises_only {A} (statuses : list N) (o : outcome A) : Prop :=
  match o with
  | Return _ => True
  | Raise (HTTPException status_code _) => status_code ∈ statuses
  | Raise _ => False
  end.

(** The answer is a 500. *)
Definition server_error {A} (o : outcome A) : Prop :=
  exists detail, o = Raise (HTTPException 500 detail).

(** The ids held by a collection, document by document. *)
Definition ids (c : Collection) : list (option Value) :=
  map (fun d : Doc => d !! "id") c.

(** The field [k] of every document, in order. *)
Definition column (k : string) (c : Collection) : list (option Value) :=
  map (fun d : Doc => d !! k) c.

(** The fields [update_mood_entry] sets. *)
Definition updated_fields : list string :=
  ["mood_type"; "emoji"; "notes"; "timestamp"].

(** The generated id of a create request is not in the collection yet. *)
Definition fresh_request (c : Collection) (req : request) : Prop :=
  match req with
  | Create uuid4 _ _ _ => absent "id" (VStr uuid4) c
  | _ => True
  end.

(** The collections reachable when every generated id is new. *)
Inductive reachable_fresh : Collection -> Prop :=
  | reachable_fresh_empty : reachable_fresh []
  | reachable_fresh_step c req :
      reachable_fresh c -> valid_request req -> fresh_request c req ->
      reachable_fresh (step c req).

(** The Mood cell of the export for a mood type. *)
Definition mood_cell (mood_type : string) : string :=
  Text.title (Text.replace "_" " " mood_type).

(** Every character of the text is an ASCII character. *)
Fixpoint ascii_text (s : string) : bool :=
  match s with
  | EmptyString => true
  | String c s' => (N_of_ascii c <? 128) && ascii_text s'
  end.

Fixpoint has_underscore (s : string) : bool :=
  match s with
  | EmptyString => false
  | String c s' => Ascii.eqb c "_" || has_underscore s'
  end.

(** Cell separators of a CSV text, as a reader of the same dialect sees
    them: the delimiters that are not inside a quoted field. *)
Fixpoint count_separators_from (in_quotes : bool) (s : string) : nat :=
  match s with
  | EmptyString => 0%nat
  | String c s' =>
      if Ascii.eqb c Text.dquote then count_separators_from (negb in_quotes) s'
      else if Ascii.eqb c Text.comma && negb in_quotes
           then S (count_separators_from in_quotes s')
           else count_separators_from in_quotes s'
  end.

Definition count_separators (s : string) : nat := count_separators_from false s.

(** The counts of a distribution, added up. *)
Definition sum_counts (dist : list MoodStat.t) : N :=
  foldr (fun s n => MoodStat.count s + n) 0 dist.

Definition sum_group_counts (gs : list GroupResult) : N :=
  foldr (fun g n => count g + n) 0 gs.

(** Documents that did not come from the handlers. *)
Module Foreign.

(** No notes, no timestamp. *)
Definition bare : Doc :=
  {[ "_id" := VObjectId "oid-x";
     "id" := VStr "id-x";
     "date" := VStr "2024-02-01";
     "mood_type" := VStr "happy";
     "emoji" := VStr ":)" ]}.

(** No mood type. *)
Definition untyped : Doc :=
  {[ "_id" := VObjectId "oid-y";
     "id" := VStr "id-y";
     "date" := VStr "2024-02-02";
     "emoji" := VStr ":)";
     "notes" := VStr "";
     "timestamp" := VDatetime (Datetime (Date 2024 2 2) 8 0 0 0) ]}.

End Foreign.

(** ** Sample data *)

Module Example.

Definition morning : datetime := Datetime (Date 2024 1 1) 9 30 0 0.
Definition evening : datetime := Datetime (Date 2024 1 2) 18 0 5 250000.
Definition later : datetime := Datetime (Date 2024 1 3) 7 15 0 42.

Definition happy_day : MoodEntry.t :=
  {| MoodEntry.date := Date 2024 1 1; MoodEntry.mood_type := "happy";
     MoodEntry.emoji := ":)"; MoodEntry.notes := None |}.

Definition sad_day : MoodEntry.t :=
  {| MoodEntry.date := Date 2024 1 2; MoodEntry.mood_type := "very_sad";
     MoodEntry.emoji := ":("; MoodEntry.notes := Some "rain, all day" |}.

Definition calm_day : MoodEntry.t :=
  {| MoodEntry.date := Date 2024 1 3; MoodEntry.mood_type := "happy";
     MoodEntry.emoji := ":)"; MoodEntry.notes := Some "" |}.

(** Notes typed on two lines. *)
Definition two_lines : string :=
  String "a" (String Text.LF (String "b" EmptyString)).

Definition long_day : MoodEntry.t :=
  {| MoodEntry.date := Date 2024 1 1; MoodEntry.mood_type := "tired";
     MoodEntry.emoji := "zz"; MoodEntry.notes := Some two_lines |}.

Definition one_entry : Collection := step [] (Create "id-1" morning "oid-1" happy_day).

Definition two_entries : Collection :=
  step one_entry (Create "id-2" evening "oid-2" sad_day).

Definition entries : list Entry :=
  [ ("oid-1", created "id-1" morning happy_day);
    ("oid-2", created "id-2" evening sad_day);
    ("oid-3", created "id-3" later calm_day) ].

Definition on (d : N) (mood_type : string) : MoodEntryResponse.t :=
  {| MoodEntryResponse.id := "id-" +:+ Text.str_N d;
     MoodEntryResponse.date := Date 2024 1 d;
     MoodEntryResponse.mood_type := mood_type;
     MoodEntryResponse.emoji := "";
     MoodEntryResponse.notes := "";
     MoodEntryResponse.timestamp := morning |}.

Definition happy_happy_sad : list Entry :=
  [ ("oid-1", on 1 "happy"); ("oid-2", on 2 "happy"); ("oid-3", on 3 "sad") ].


End Example.

(** * Proofs *)

(** ** Dates: printing, parsing and order *)

#[local] Ltac Zify.zify_post_hook ::= Z.to_euclidean_division_equations.

Lemma mod10_lt n : n mod 10 < 10.
Proof. apply N.mod_upper_bound. lia. Qed.

Lemma N_of_digit n : N_of_ascii (digit n) = 48 + n mod 10.
Proof.
  unfold digit. apply N_ascii_embedding.
  pose proof (mod10_lt n). lia.
Qed.

Lemma is_digit_digit n : is_digit (digit n) = true.
Proof.
  unfold is_digit. rewrite N_of_digit.
  pose proof (mod10_lt n).
  apply andb_true_iff; split; apply N.leb_le; lia.
Qed.

Lemma digit_val_digit n : digit_val (digit n) = n mod 10.
Proof. unfold digit_val. rewrite N_of_digit. lia. Qed.

Lemma valid_date_bounds d :
  valid_date d = true ->
  1 <= year d <= 9999 /\ 1 <= month d <= 12 /\ 1 <= day d <= 31.
Proof.
  unfold valid_date, days_in_month. intros H.
  repeat (apply andb_true_iff in H; destruct H as [H ?]).
  repeat match goal with H : (_ <=? _) = true |- _ => apply N.leb_le in H end.
  repeat match goal with H : context [if ?b then _ else _] |- _ => destruct b end; lia.
Qed.

Lemma parse_date_isoformat d :
  valid_date d = true -> parse_date (date_isoformat d) = Some d.
Proof.
  intros Hv. pose proof (valid_date_bounds d Hv) as (Hy & Hm & Hd).
  unfold date_isoformat, date_isoformat_k, pad4, pad2, parse_date.
  cbn [forallb]. rewrite !is_digit_digit. cbn [andb].
  rewrite !digit_val_digit.
  replace (Date _ _ _) with d; [by rewrite Hv|].
  destruct d as [y m dd]; cbn in *. f_equal; lia.
Qed.

Lemma digit_compare a b : Ascii.compare (digit a) (digit b) = (a mod 10 ?= b mod 10).
Proof.
  unfold Ascii.compare. rewrite !N_of_digit.
  destruct (N.compare_spec (a mod 10) (b mod 10)) as [E|L|G].
  - rewrite E. apply N.compare_refl.
  - apply N.compare_lt_iff. lia.
  - apply N.compare_gt_iff. lia.
Qed.

Lemma pad2_compare a b k1 k2 :
  a < 100 -> b < 100 ->
  String.compare (pad2 a k1) (pad2 b k2)
  = match a ?= b with Eq => String.compare k1 k2 | c => c end.
Proof.
  intros Ha Hb. unfold pad2. cbn [String.compare]. rewrite !digit_compare.
  destruct (N.compare_spec ((a / 10) mod 10) ((b / 10) mod 10)),
    (N.compare_spec (a mod 10) (b mod 10)), (N.compare_spec a b);
    try reflexivity; exfalso; lia.
Qed.

Lemma digit_eq a b : a mod 10 = b mod 10 -> digit a = digit b.
Proof. unfold digit. by intros ->. Qed.

Lemma pad2_mod n k : pad2 n k = pad2 (n mod 100) k.
Proof.
  unfold pad2. rewrite (digit_eq (n / 10) (n mod 100 / 10)) by lia.
  by rewrite (digit_eq n (n mod 100)) by lia.
Qed.

Lemma pad4_pad2 n k : pad4 n k = pad2 (n / 100) (pad2 (n mod 100) k).
Proof.
  unfold pad4. rewrite (pad2_mod n). unfold pad2 at 2.
  by rewrite (digit_eq (n / 1000) (n / 100 / 10)) by lia.
Qed.

Lemma pad4_compare a b k1 k2 :
  a < 10000 -> b < 10000 ->
  String.compare (pad4 a k1) (pad4 b k2)
  = match a ?= b with Eq => String.compare k1 k2 | c => c end.
Proof.
  intros Ha Hb. rewrite !pad4_pad2, !pad2_compare by lia.
  destruct (N.compare_spec (a / 100) (b / 100)),
    (N.compare_spec (a mod 100) (b mod 100)), (N.compare_spec a b);
    try reflexivity; exfalso; lia.
Qed.

(** ISO dates compare as strings the way the dates compare. *)
Lemma date_isoformat_compare d1 d2 :
  valid_date d1 = true -> valid_date d2 = true ->
  String.compare (date_isoformat d1) (date_isoformat d2) = date_compare d1 d2.
Proof.
  intros H1 H2.
  pose proof (valid_date_bounds d1 H1) as (Hy1 & Hm1 & Hd1).
  pose proof (valid_date_bounds d2 H2) as (Hy2 & Hm2 & Hd2).
  unfold date_isoformat, date_isoformat_k, date_compare.
  rewrite pad4_compare by lia.
  change (String.compare (String "-" ?x) (String "-" ?y)) with (String.compare x y).
  rewrite pad2_compare by lia.
  change (String.compare (String "-" ?x) (String "-" ?y)) with (String.compare x y).
  rewrite pad2_compare by lia. cbn [String.compare].
  by destruct (year d1 ?= year d2), (month d1 ?= month d2), (day d1 ?= day d2).
Qed.

Lemma date_compare_antisym a b : date_compare a b = CompOpp (date_compare b a).
Proof.
  unfold date_compare.
  rewrite (N.compare_antisym (year b)), (N.compare_antisym (month b)),
    (N.compare_antisym (day b)).
  destruct (year b ?= year a), (month b ?= month a), (day b ?= day a); reflexivity.
Qed.

Lemma datetime_compare_antisym a b :
  datetime_compare a b = CompOpp (datetime_compare b a).
Proof.
  unfold datetime_compare.
  rewrite (date_compare_antisym (dt_date a)), (N.compare_antisym (hour b)),
    (N.compare_antisym (minute b)), (N.compare_antisym (second b)),
    (N.compare_antisym (microsecond b)).
  destruct (date_compare (dt_date b) (dt_date a)), (hour b ?= hour a),
    (minute b ?= minute a), (second b ?= second a),
    (microsecond b ?= microsecond a); reflexivity.
Qed.

Lemma date_le_lex a b :
  date_le a b <->
  year a < year b \/
  year a = year b /\ (month a < month b \/ month a = month b /\ day a <= day b).
Proof.
  unfold date_le, date_compare.
  destruct (N.compare_spec (year a) (year b)),
    (N.compare_spec (month a) (month b)), (N.compare_spec (day a) (day b));
    split; intros; try congruence; lia.
Qed.

Lemma date_le_trans a b c : date_le a b -> date_le b c -> date_le a c.
Proof. rewrite !date_le_lex. lia. Qed.

Lemma date_isoformat_inj d1 d2 :
  valid_date d1 = true -> valid_date d2 = true ->
  date_isoformat d1 = date_isoformat d2 -> d1 = d2.
Proof.
  intros H1 H2 E. apply parse_date_isoformat in H1, H2.
  rewrite E in H1. congruence.
Qed.

(** ** The BSON order is total *)

Lemma bson_compare_antisym a b : bson_compare a b = CompOpp (bson_compare b a).
Proof.
  destruct a, b; cbn; try reflexivity;
    auto using String.compare_antisym, datetime_compare_antisym.
Qed.

Lemma bson_leb_total a b : bson_leb a b = true \/ bson_leb b a = true.
Proof.
  unfold bson_leb. rewrite (bson_compare_antisym b a).
  destruct (bson_compare a b); cbn; auto.
Qed.

#[local] Instance descending_total k : Total (descending k).
Proof. intros d1 d2. unfold descending. destruct (bson_leb_total (field k d1) (field k d2)); auto. Qed.

#[local] Instance count_descending_total : Total count_descending.
Proof. intros g1 g2. unfold count_descending. lia. Qed.

#[local] Instance count_descending_trans : Transitive count_descending.
Proof. intros g1 g2 g3. unfold count_descending. lia. Qed.

#[local] Instance newest_first_trans : Transitive newest_first.
Proof. intros a b c. unfold newest_first. eauto using date_le_trans. Qed.

(** ** Documents *)

Lemma doc_of_oid oid r :
  doc_of oid r !! "_id" = Some (VObjectId oid).
Proof. reflexivity. Qed.

Lemma doc_of_id oid r :
  doc_of oid r !! "id" = Some (VStr (MoodEntryResponse.id r)).
Proof. reflexivity. Qed.

Lemma doc_of_date oid r :
  doc_of oid r !! "date" = Some (VStr (date_isoformat (MoodEntryResponse.date r))).
Proof. reflexivity. Qed.

Lemma doc_of_mood_type oid r :
  doc_of oid r !! "mood_type" = Some (VStr (MoodEntryResponse.mood_type r)).
Proof. reflexivity. Qed.

Lemma doc_of_emoji oid r :
  doc_of oid r !! "emoji" = Some (VStr (MoodEntryResponse.emoji r)).
Proof. reflexivity. Qed.

Lemma doc_of_notes oid r :
  doc_of oid r !! "notes" = Some (VStr (MoodEntryResponse.notes r)).
Proof. reflexivity. Qed.

Lemma doc_of_timestamp oid r :
  doc_of oid r !! "timestamp" = Some (VDatetime (MoodEntryResponse.timestamp r)).
Proof. reflexivity. Qed.


Lemma or_empty_default x : or_empty x = default "" x.
Proof. destruct x as [[|]|]; reflexivity. Qed.

(** What [$set] does to an entry's document. *)
Lemma set_fields_doc (v0 v1 v2 v3 v4 v5 v6 x3 x4 x5 x6 : Value) :
  bson_doc {[ "mood_type" := x3; "emoji" := x4; "notes" := x5; "timestamp" := x6 ]}
  ∪ {[ "_id" := v0; "id" := v1; "date" := v2; "mood_type" := v3;
       "emoji" := v4; "notes" := v5; "timestamp" := v6 ]}
  = {[ "_id" := v0; "id" := v1; "date" := v2; "mood_type" := bson_value x3;
       "emoji" := bson_value x4; "notes" := bson_value x5;
       "timestamp" := bson_value x6 ]}.
Proof. reflexivity. Qed.

(** What the collection keeps of an entry's document. *)
Lemma bson_doc_of oid r : bson_doc (doc_of oid r) = doc_of oid (stored_entry r).
Proof. reflexivity. Qed.

Lemma truncate_ms_idem t : truncate_ms (truncate_ms t) = truncate_ms t.
Proof.
  unfold truncate_ms. cbn [dt_date hour minute second microsecond].
  f_equal. lia.
Qed.

Lemma truncate_ms_whole t :
  microsecond t mod 1000 = 0 -> truncate_ms t = t.
Proof.
  intros H. destruct t as [d h m s us]. unfold truncate_ms.
  cbn [dt_date hour minute second microsecond] in *. f_equal. lia.
Qed.

(** ** The response model *)

Lemma MoodEntryResponse_new_fields (kw : Doc) r :
  kw !! "id" = Some (VStr (MoodEntryResponse.id r)) ->
  kw !! "date" = Some (VStr (date_isoformat (MoodEntryResponse.date r))) ->
  kw !! "mood_type" = Some (VStr (MoodEntryResponse.mood_type r)) ->
  kw !! "emoji" = Some (VStr (MoodEntryResponse.emoji r)) ->
  kw !! "notes" = Some (VStr (MoodEntryResponse.notes r)) ->
  kw !! "timestamp" = Some (VDatetime (MoodEntryResponse.timestamp r)) ->
  valid_date (MoodEntryResponse.date r) = true ->
  MoodEntryResponse_new kw = Return r.
Proof.
  intros Hid Hdate Hmood Hemoji Hnotes Hts Hvalid.
  unfold MoodEntryResponse_new, str_field, date_field, datetime_field.
  rewrite Hid, Hdate, Hmood, Hemoji, Hnotes, Hts.
  rewrite (parse_date_isoformat _ Hvalid). cbn. by destruct r.
Qed.

(** The [_id] key is not a field of the model: with or without it, the
    constructor gives the same response. *)
Lemma MoodEntryResponse_new_doc oid r :
  valid_date (MoodEntryResponse.date r) = true ->
  MoodEntryResponse_new (doc_of oid r) = Return r.
Proof. intros. by apply MoodEntryResponse_new_fields. Qed.

Lemma MoodEntryResponse_new_popped oid r :
  valid_date (MoodEntryResponse.date r) = true ->
  MoodEntryResponse_new (delete "_id" (doc_of oid r)) = Return r.
Proof. intros. by apply MoodEntryResponse_new_fields. Qed.

Lemma response_json_fields r : dom (response_json r) = public_fields.
Proof. unfold response_json, public_fields. rewrite !dom_insert_L, dom_singleton_L. set_solver. Qed.

Lemma response_json_no_oid r : response_json r !! "_id" = None.
Proof. reflexivity. Qed.

(** ** Collection operations *)

Lemma matches_true k v (d : Doc) : matches k v d = true <-> d !! k = Some v.
Proof. unfold matches. apply bool_decide_eq_true. Qed.

Lemma matches_false k v (d : Doc) : matches k v d = false <-> d !! k <> Some v.
Proof. unfold matches. apply bool_decide_eq_false. Qed.

Lemma find_one_absent k v c : absent k v c -> find_one k v c = None.
Proof.
  unfold absent, find_one. induction 1 as [|d c Hd _ IH]; [done|].
  cbn. apply matches_false in Hd. by rewrite Hd.
Qed.

Lemma find_one_None k v c : find_one k v c = None -> absent k v c.
Proof.
  unfold absent, find_one. induction c as [|d c IH]; [constructor|].
  cbn. destruct (matches k v d) eqn:E; [done|].
  intros H. constructor; [by apply matches_false | auto].
Qed.

Lemma find_one_Some k v c d :
  find_one k v c = Some d -> d ∈ c /\ d !! k = Some v.
Proof.
  unfold find_one. intros H. apply find_some in H as [Hin Hm].
  split; [by apply list_elem_of_In | by apply matches_true].
Qed.

Lemma find_one_elem k v c d :
  d ∈ c -> d !! k = Some v -> exists d', find_one k v c = Some d'.
Proof.
  intros Hin Hd. destruct (find_one k v c) eqn:E; [eauto|].
  apply find_one_None in E. unfold absent in E.
  rewrite Forall_forall in E. by destruct (E d Hin).
Qed.

Lemma find_one_first k v c1 d c2 :
  absent k v c1 -> d !! k = Some v -> find_one k v (c1 ++ d :: c2) = Some d.
Proof.
  unfold absent, find_one. induction 1 as [|d' c1 Hd' _ IH]; intros Hd; cbn.
  - apply matches_true in Hd. by rewrite Hd.
  - apply matches_false in Hd'. rewrite Hd'. auto.
Qed.

Lemma find_one_truthy k v c d : find_one k v c = Some d -> truthy (Some d) = true.
Proof.
  intros H. apply find_one_Some in H as [_ H]. cbn.
  rewrite bool_decide_false; [done|]. intros ->. by rewrite lookup_empty in H.
Qed.

Lemma absent_app k v c1 c2 : absent k v (c1 ++ c2) <-> absent k v c1 /\ absent k v c2.
Proof. apply Forall_app. Qed.

Lemma update_one_first k v upd c1 d c2 :
  absent k v c1 -> d !! k = Some v ->
  update_one k v upd (c1 ++ d :: c2) = c1 ++ (bson_doc upd ∪ d) :: c2.
Proof.
  unfold absent. induction 1 as [|d' c1 Hd' _ IH]; intros Hd; cbn.
  - apply matches_true in Hd. by rewrite Hd.
  - apply matches_false in Hd'. rewrite Hd'. f_equal. auto.
Qed.

Lemma update_one_absent k v upd c : absent k v c -> update_one k v upd c = c.
Proof.
  unfold absent. induction 1 as [|d c Hd _ IH]; [done|]. cbn.
  apply matches_false in Hd. rewrite Hd. by f_equal.
Qed.

(** [$set] leaves alone every field it does not name. *)
Lemma update_one_other_field k v (upd : Doc) k' c :
  upd !! k' = None ->
  map (fun d : Doc => d !! k') (update_one k v upd c) = map (fun d : Doc => d !! k') c.
Proof.
  intros Hupd. induction c as [|d c IH]; [done|]. cbn.
  destruct (matches k v d); cbn; [|by f_equal].
  f_equal. unfold bson_doc. rewrite lookup_union, lookup_fmap, Hupd.
  by destruct (d !! k').
Qed.

Lemma delete_one_first k v c1 d c2 :
  absent k v c1 -> d !! k = Some v ->
  delete_one k v (c1 ++ d :: c2) = (1, c1 ++ c2).
Proof.
  unfold absent. induction 1 as [|d' c1 Hd' _ IH]; intros Hd; cbn.
  - apply matches_true in Hd. by rewrite Hd.
  - apply matches_false in Hd'. rewrite Hd'. by rewrite IH.
Qed.

Lemma delete_one_absent k v c : absent k v c -> delete_one k v c = (0, c).
Proof.
  unfold absent. induction 1 as [|d c Hd _ IH]; [done|]. cbn.
  apply matches_false in Hd. by rewrite Hd, IH.
Qed.

(** Every collection either has no match or splits at its first match. *)
Lemma first_match k v c :
  absent k v c \/
  exists c1 d c2, c = c1 ++ d :: c2 /\ absent k v c1 /\ d !! k = Some v.
Proof.
  induction c as [|d c IH]; [left; constructor|].
  destruct (decide (d !! k = Some v)) as [Hd|Hd].
  - right. exists [], d, c. repeat split; [constructor | done].
  - destruct IH as [IH|(c1 & d' & c2 & -> & Hc1 & Hd')].
    + left. by constructor.
    + right. exists (d :: c1), d', c2. repeat split; [by constructor | done].
Qed.

Lemma delete_one_sublist k v c : sublist (delete_one k v c).2 c.
Proof.
  destruct (first_match k v c) as [H|(c1 & d & c2 & -> & Hc1 & Hd)].
  - rewrite delete_one_absent by done. done.
  - rewrite (delete_one_first _ _ _ _ _ Hc1 Hd). cbn.
    apply sublist_app; [done|]. by apply sublist_cons.
Qed.

(** ** The handlers, case by case *)

Lemma duplicate_detail_reraised :
  Text.contains "already exists"
    (str_exn (HTTPException 400 "Mood entry already exists for this date")) = true.
Proof. vm_compute. reflexivity. Qed.

Ltac run_handler :=
  unfold try_except, mbind, M_bind, mret, M_ret, raise, of_outcome,
    db_find_one, db_insert_one, db_update_one, db_delete_one,
    db_find_sort_desc, db_count_documents, db_aggregate_group_sort.

Lemma create_mood_entry_duplicate uuid4 utcnow oid mood c d :
  find_one "date" (VStr (date_isoformat (MoodEntry.date mood))) c = Some d ->
  create_mood_entry uuid4 utcnow oid mood c
  = (c, Raise (HTTPException 400 "Mood entry already exists for this date")).
Proof.
  intros Hfind. unfold create_mood_entry. run_handler.
  rewrite Hfind, (find_one_truthy _ _ _ _ Hfind).
  by rewrite duplicate_detail_reraised.
Qed.

(** The dict [create_mood_entry] builds has no [_id]: the driver adds one,
    and the stored document is the entry's, as the collection keeps it. *)
Lemma insert_one_mood_dict oid uuid4 utcnow mood c :
  insert_one oid
    {[ "id" := VStr uuid4;
       "date" := VStr (date_isoformat (MoodEntry.date mood));
       "mood_type" := VStr (MoodEntry.mood_type mood);
       "emoji" := VStr (MoodEntry.emoji mood);
       "notes" := VStr (default "" (MoodEntry.notes mood));
       "timestamp" := VDatetime utcnow ]} c
  = (doc_of oid (created uuid4 utcnow mood),
     c ++ [doc_of oid (stored_entry (created uuid4 utcnow mood))]).
Proof. reflexivity. Qed.

Lemma create_mood_entry_new uuid4 utcnow oid mood c :
  find_one "date" (VStr (date_isoformat (MoodEntry.date mood))) c = None ->
  valid_date (MoodEntry.date mood) = true ->
  create_mood_entry uuid4 utcnow oid mood c
  = (c ++ [doc_of oid (stored_entry (created uuid4 utcnow mood))],
     Return (created uuid4 utcnow mood)).
Proof.
  intros Hfind Hvalid. unfold create_mood_entry. run_handler.
  rewrite Hfind. cbn [truthy]. cbv iota.
  rewrite or_empty_default, insert_one_mood_dict.
  by rewrite MoodEntryResponse_new_doc.
Qed.

Lemma get_mood_entry_absent mood_id c :
  absent "id" (VStr mood_id) c ->
  get_mood_entry mood_id c = (c, Raise (HTTPException 404 "Mood entry not found")).
Proof.
  intros H. unfold get_mood_entry. run_handler.
  by rewrite (find_one_absent _ _ _ H).
Qed.

Lemma get_mood_entry_first mood_id c1 oid r c2 :
  absent "id" (VStr mood_id) c1 ->
  MoodEntryResponse.id r = mood_id ->
  valid_date (MoodEntryResponse.date r) = true ->
  get_mood_entry mood_id (c1 ++ doc_of oid r :: c2)
  = (c1 ++ doc_of oid r :: c2, Return r).
Proof.
  intros Hc1 <- Hvalid. unfold get_mood_entry. run_handler.
  rewrite (find_one_first _ _ _ _ _ Hc1 (doc_of_id oid r)).
  by rewrite MoodEntryResponse_new_popped.
Qed.

Lemma update_mood_entry_absent utcnow mood_id mood c :
  absent "id" (VStr mood_id) c ->
  update_mood_entry utcnow mood_id mood c
  = (c, Raise (HTTPException 404 "Mood entry not found")).
Proof.
  intros H. unfold update_mood_entry. run_handler.
  by rewrite (find_one_absent _ _ _ H).
Qed.

Lemma set_fields_entry utcnow mood oid r :
  bson_doc {[ "mood_type" := VStr (MoodEntry.mood_type mood);
              "emoji" := VStr (MoodEntry.emoji mood);
              "notes" := VStr (default "" (MoodEntry.notes mood));
              "timestamp" := VDatetime utcnow ]} ∪ doc_of oid r
  = doc_of oid (updated utcnow mood r).
Proof. apply set_fields_doc. Qed.

Lemma update_mood_entry_first utcnow mood_id mood c1 oid r c2 :
  absent "id" (VStr mood_id) c1 ->
  MoodEntryResponse.id r = mood_id ->
  valid_date (MoodEntryResponse.date r) = true ->
  update_mood_entry utcnow mood_id mood (c1 ++ doc_of oid r :: c2)
  = (c1 ++ doc_of oid (updated utcnow mood r) :: c2,
     Return (updated utcnow mood r)).
Proof.
  intros Hc1 <- Hvalid. unfold update_mood_entry. run_handler.
  rewrite (find_one_first _ _ _ _ _ Hc1 (doc_of_id oid r)).
  rewrite (find_one_truthy "id" (VStr (MoodEntryResponse.id r))
             (c1 ++ doc_of oid r :: c2) (doc_of oid r))
    by (apply find_one_first; [done | apply doc_of_id]).
  cbn [negb]. cbv iota. rewrite or_empty_default.
  rewrite (update_one_first _ _ _ _ _ _ Hc1 (doc_of_id oid r)), set_fields_entry.
  rewrite (find_one_first _ _ _ _ _ Hc1 (doc_of_id oid (updated utcnow mood r))).
  by rewrite MoodEntryResponse_new_popped.
Qed.

(** [update_mood_entry] changes the collection through [update_one] only. *)
Lemma update_mood_entry_store utcnow mood_id mood c :
  let upd : Doc :=
    {[ "mood_type" := VStr (MoodEntry.mood_type mood);
       "emoji" := VStr (MoodEntry.emoji mood);
       "notes" := VStr (default "" (MoodEntry.notes mood));
       "timestamp" := VDatetime utcnow ]} in
  fst (update_mood_entry utcnow mood_id mood c)
  = update_one "id" (VStr mood_id) upd c.
Proof.
  cbn zeta. unfold update_mood_entry. run_handler.
  destruct (first_match "id" (VStr mood_id) c) as [H|(c1 & d & c2 & -> & Hc1 & Hd)].
  - rewrite (find_one_absent _ _ _ H), (update_one_absent _ _ _ _ H). done.
  - rewrite (find_one_first _ _ _ _ _ Hc1 Hd). 
    rewrite (find_one_truthy "id" (VStr mood_id) (c1 ++ d :: c2) d)
      by (by apply find_one_first).
    cbn [negb]. cbv iota. rewrite or_empty_default.
    destruct (find_one _ _ (update_one _ _ _ _)); cbn.
    + destruct (MoodEntryResponse_new _) as [?|[]]; done.
    + done.
Qed.

Lemma delete_mood_entry_absent mood_id c :
  absent "id" (VStr mood_id) c ->
  delete_mood_entry mood_id c
  = (c, Raise (HTTPException 404 "Mood entry not found")).
Proof.
  intros H. unfold delete_mood_entry. run_handler.
  by rewrite (delete_one_absent _ _ _ H).
Qed.

Lemma delete_mood_entry_first mood_id c1 (d : Doc) c2 :
  absent "id" (VStr mood_id) c1 ->
  d !! "id" = Some (VStr mood_id) ->
  delete_mood_entry mood_id (c1 ++ d :: c2)
  = (c1 ++ c2, Return {[ "message" := "Mood entry deleted successfully" ]}).
Proof.
  intros Hc1 Hd. unfold delete_mood_entry. run_handler.
  by rewrite (delete_one_first _ _ _ _ _ Hc1 Hd).
Qed.

Lemma delete_mood_entry_store mood_id c :
  fst (delete_mood_entry mood_id c) = (delete_one "id" (VStr mood_id) c).2.
Proof.
  destruct (first_match "id" (VStr mood_id) c) as [H|(c1 & d & c2 & -> & Hc1 & Hd)].
  - by rewrite delete_mood_entry_absent, delete_one_absent.
  - by rewrite (delete_mood_entry_first _ _ _ _ Hc1 Hd), (delete_one_first _ _ _ _ _ Hc1 Hd).
Qed.

(** ** Reachable collections *)

Lemma create_mood_entry_effect uuid4 utcnow oid mood c :
  fst (create_mood_entry uuid4 utcnow oid mood c) = c \/
  absent "date" (VStr (date_isoformat (MoodEntry.date mood))) c /\
  fst (create_mood_entry uuid4 utcnow oid mood c)
  = c ++ [doc_of oid (stored_entry (created uuid4 utcnow mood))].
Proof.
  unfold create_mood_entry. run_handler.
  destruct (find_one _ _ c) as [d|] eqn:Hfind.
  - rewrite (find_one_truthy _ _ _ _ Hfind). cbn.
    destruct (Text.contains _ _); cbn; auto.
  - apply find_one_None in Hfind.
    cbn [truthy]. cbv iota. rewrite or_empty_default, insert_one_mood_dict.
    destruct (MoodEntryResponse_new _); cbn; [auto|].
    destruct (Text.contains _ _); cbn; auto.
Qed.

Lemma dates_app c1 c2 : dates (c1 ++ c2) = dates c1 ++ dates c2.
Proof. apply map_app. Qed.

Lemma absent_not_in_dates v c : absent "date" v c -> Some v ∉ dates c.
Proof.
  unfold absent, dates. rewrite Forall_forall. intros H Hin.
  apply list_elem_of_fmap in Hin as (d & Hd & Hin). by apply (H d).
Qed.

Lemma update_mood_entry_dates utcnow mood_id mood c :
  dates (fst (update_mood_entry utcnow mood_id mood c)) = dates c.
Proof.
  rewrite update_mood_entry_store. by apply update_one_other_field.
Qed.

Lemma delete_mood_entry_dates mood_id c :
  sublist (dates (fst (delete_mood_entry mood_id c))) (dates c).
Proof.
  rewrite delete_mood_entry_store. unfold dates.
  apply (fmap_sublist (fun d : Doc => d !! "date")), delete_one_sublist.
Qed.

Lemma reachable_dates_NoDup c : reachable c -> NoDup (dates c).
Proof.
  induction 1 as [|c [uuid4 utcnow oid mood|utcnow mood_id mood|mood_id] _ IH _].
  - constructor.
  - cbn [step].
    destruct (create_mood_entry_effect uuid4 utcnow oid mood c) as [->|[Habs ->]];
      [done|].
    rewrite dates_app. apply NoDup_app. repeat split; [done| |apply NoDup_singleton].
    intros x Hx Hx'. apply list_elem_of_singleton in Hx'. subst x.
    by apply (absent_not_in_dates _ _ Habs).
  - cbn [step]. by rewrite update_mood_entry_dates.
  - cbn [step]. eapply sublist_NoDup; [done | apply delete_mood_entry_dates].
Qed.

Lemma update_one_Forall (P : Doc -> Prop) k v upd c :
  Forall P c -> (forall d, P d -> P (bson_doc upd ∪ d)) ->
  Forall P (update_one k v upd c).
Proof.
  intros Hc Hupd. induction Hc as [|d c Hd Hc IH]; [constructor|].
  cbn. destruct (matches k v d); constructor; auto.
Qed.

Lemma update_one_elem k v upd c (d' : Doc) :
  d' ∈ update_one k v upd c ->
  d' ∈ c \/ exists d, d ∈ c /\ d' = bson_doc upd ∪ d.
Proof.
  induction c as [|d c IH]; cbn; [auto|].
  destruct (matches k v d).
  - intros [->|H]%elem_of_cons.
    + right. exists d. split; [left | done].
    + left. by right.
  - intros [->|H]%elem_of_cons.
    + left. left.
    + destruct (IH H) as [?|(d0 & ? & ?)]; [left; by right|].
      right. exists d0. split; [by right | done].
Qed.

Lemma reachable_notes c : reachable c -> Forall has_notes c.
Proof.
  induction 1 as [|c [uuid4 utcnow oid mood|utcnow mood_id mood|mood_id] _ IH _].
  - constructor.
  - cbn [step].
    destruct (create_mood_entry_effect uuid4 utcnow oid mood c) as [->|[_ ->]];
      [done|].
    apply Forall_app. split; [done|]. constructor; [|constructor].
    eexists. apply doc_of_notes.
  - cbn [step]. rewrite update_mood_entry_store.
    apply update_one_Forall; [done|]. intros d _.
    eexists. apply lookup_union_Some_l. reflexivity.
  - cbn [step]. rewrite delete_mood_entry_store.
    destruct (first_match "id" (VStr mood_id) c) as [H|(c1 & d & c2 & -> & Hc1 & Hd)].
    + by rewrite delete_one_absent.
    + rewrite (delete_one_first _ _ _ _ _ Hc1 Hd). cbn.
      apply Forall_app in IH as [? [_ ?]%Forall_cons]. by apply Forall_app.
Qed.

(** ** Reachable collections hold entries *)

Lemma update_one_store_of utcnow mood mood_id es :
  Forall valid_entry es ->
  exists es',
    update_one "id" (VStr mood_id)
      {[ "mood_type" := VStr (MoodEntry.mood_type mood);
         "emoji" := VStr (MoodEntry.emoji mood);
         "notes" := VStr (default "" (MoodEntry.notes mood));
         "timestamp" := VDatetime utcnow ]} (store_of es)
    = store_of es' /\
    Forall valid_entry es'.
Proof.
  induction 1 as [|e es He Hes (es' & IH & Hes')]; [by exists []|].
  change (store_of (e :: es)) with (doc_of e.1 e.2 :: store_of es).
  cbn [update_one]. destruct (matches _ _ _).
  - exists ((e.1, updated utcnow mood e.2) :: es). split.
    + by rewrite set_fields_entry.
    + by constructor.
  - exists (e :: es'). split; [by rewrite IH | by constructor].
Qed.

Lemma delete_one_store_of mood_id es :
  Forall valid_entry es ->
  exists es',
    (delete_one "id" (VStr mood_id) (store_of es)).2 = store_of es' /\
    Forall valid_entry es'.
Proof.
  induction 1 as [|e es He Hes (es' & IH & Hes')]; [by exists []|].
  change (store_of (e :: es)) with (doc_of e.1 e.2 :: store_of es).
  cbn [delete_one]. destruct (matches _ _ _).
  - by exists es.
  - exists (e :: es'). destruct (delete_one _ _ (store_of es)) as [n c'].
    cbn in *. split; [by rewrite IH | by constructor].
Qed.

(** Every reachable collection is a list of entry documents with dates that
    exist: the collections the theorems on listing, export and statistics
    range over. *)
Lemma reachable_store_of c :
  reachable c -> exists es, c = store_of es /\ Forall valid_entry es.
Proof.
  induction 1 as [|c [uuid4 utcnow oid mood|utcnow mood_id mood|mood_id] _
                    (es & -> & Hes) Hreq].
  - by exists [].
  - cbn [step].
    destruct (create_mood_entry_effect uuid4 utcnow oid mood (store_of es))
      as [->|[_ ->]]; [by exists es|].
    exists (es ++ [(oid, stored_entry (created uuid4 utcnow mood))]). split.
    + unfold store_of. by rewrite map_app.
    + apply Forall_app. split; [done|]. by repeat constructor.
  - cbn [step]. rewrite update_mood_entry_store.
    by apply update_one_store_of.
  - cbn [step]. rewrite delete_mood_entry_store.
    by apply delete_one_store_of.
Qed.

(** ** Create *)

(** C1.  If the collection holds a document whose date is the date of the
    request, [create_mood_entry] raises the 400 error "Mood entry already
    exists for this date" and the collection is returned as it was: no
    document is added and none is changed. *)
Theorem create_duplicate_date_rejected uuid4 utcnow oid mood c (d : Doc) :
  d ∈ c ->
  d !! "date" = Some (VStr (date_isoformat (MoodEntry.date mood))) ->
  create_mood_entry uuid4 utcnow oid mood c
  = (c, Raise (HTTPException 400 "Mood entry already exists for this date")).
Proof.
  intros Hin Hd.
  destruct (find_one_elem _ _ _ _ Hin Hd) as [d' Hfind].
  by apply create_mood_entry_duplicate with d'.
Qed.

Lemma create_duplicate_date_rejected_witness :
  create_mood_entry "id-9" Example.later "oid-9" Example.long_day Example.two_entries
  = (Example.two_entries,
     Raise (HTTPException 400 "Mood entry already exists for this date")).
Proof.
  apply (create_duplicate_date_rejected _ _ _ _ _
           (doc_of "oid-1" (created "id-1" Example.morning Example.happy_day))).
  - apply (bool_decide_unpack _). vm_compute. exact I.
  - reflexivity.
Defined.

(** C3, as the code has it.  If no stored document has the date of the
    request, and the generated id is fresh, [create_mood_entry] returns the
    entry [created uuid4 utcnow mood] (the generated id, the given date,
    mood type and emoji, the notes or the empty string, the current
    instant) and appends its document with the instant cut to whole
    milliseconds, as the collection keeps it.  [get_mood_entry] on the
    returned id then returns the stored entry: the returned one with its
    timestamp cut to whole milliseconds, which is the returned one itself
    when the instant is a whole number of milliseconds. *)
Theorem create_then_get uuid4 utcnow oid mood c :
  absent "date" (VStr (date_isoformat (MoodEntry.date mood))) c ->
  absent "id" (VStr uuid4) c ->
  valid_date (MoodEntry.date mood) = true ->
  let r := created uuid4 utcnow mood in
  let c' := c ++ [doc_of oid (stored_entry r)] in
  create_mood_entry uuid4 utcnow oid mood c = (c', Return r) /\
  get_mood_entry (MoodEntryResponse.id r) c' = (c', Return (stored_entry r)) /\
  MoodEntryResponse.id r = uuid4 /\
  MoodEntryResponse.date r = MoodEntry.date mood /\
  MoodEntryResponse.mood_type r = MoodEntry.mood_type mood /\
  MoodEntryResponse.emoji r = MoodEntry.emoji mood /\
  MoodEntryResponse.notes r
  = match MoodEntry.notes mood with Some s => s | None => "" end /\
  MoodEntryResponse.timestamp r = utcnow /\
  stored_entry r
  = {| MoodEntryResponse.id := uuid4;
       MoodEntryResponse.date := MoodEntry.date mood;
       MoodEntryResponse.mood_type := MoodEntry.mood_type mood;
       MoodEntryResponse.emoji := MoodEntry.emoji mood;
       MoodEntryResponse.notes :=
         match MoodEntry.notes mood with Some s => s | None => "" end;
       MoodEntryResponse.timestamp := truncate_ms utcnow |} /\
  (microsecond utcnow mod 1000 = 0 -> stored_entry r = r).
Proof.
  intros Hdate Hid Hvalid r c'. split_and!; try reflexivity.
  - by apply create_mood_entry_new; [apply find_one_absent|].
  - by apply get_mood_entry_first.
  - intros Hms. unfold stored_entry, r, created.
    cbn [MoodEntryResponse.id MoodEntryResponse.date MoodEntryResponse.mood_type
         MoodEntryResponse.emoji MoodEntryResponse.notes MoodEntryResponse.timestamp].
    by rewrite truncate_ms_whole.
Qed.

Lemma create_then_get_witness :
  create_mood_entry "id-3" Example.evening "oid-3" Example.calm_day Example.two_entries
  = (Example.two_entries
       ++ [doc_of "oid-3" (created "id-3" Example.evening Example.calm_day)],
     Return (created "id-3" Example.evening Example.calm_day)) /\
  get_mood_entry "id-3"
    (Example.two_entries
       ++ [doc_of "oid-3" (created "id-3" Example.evening Example.calm_day)])
  = (Example.two_entries
       ++ [doc_of "oid-3" (created "id-3" Example.evening Example.calm_day)],
     Return (created "id-3" Example.evening Example.calm_day)).
Proof.
  pose proof (create_then_get "id-3" Example.evening "oid-3" Example.calm_day
                Example.two_entries) as H.
  destruct H as (H1 & H2 & _).
  - apply (bool_decide_unpack _). vm_compute. exact I.
  - apply (bool_decide_unpack _). vm_compute. exact I.
  - reflexivity.
  - split; [exact H1 | exact H2].
Defined.

(** C3 as stated fails on the record read back: created at an instant
    with 42 microseconds, the entry is returned with them and read back
    without them. *)
Lemma create_then_get_counterexample :
  snd (create_mood_entry "id-3" Example.later "oid-3" Example.calm_day
         Example.two_entries)
  = Return (created "id-3" Example.later Example.calm_day) /\
  snd (get_mood_entry "id-3"
         (fst (create_mood_entry "id-3" Example.later "oid-3" Example.calm_day
                 Example.two_entries)))
  = Return (stored_entry (created "id-3" Example.later Example.calm_day)) /\
  microsecond (MoodEntryResponse.timestamp
                 (created "id-3" Example.later Example.calm_day)) = 42 /\
  microsecond (MoodEntryResponse.timestamp
                 (stored_entry (created "id-3" Example.later Example.calm_day))) = 0 /\
  snd (get_mood_entry "id-3"
         (fst (create_mood_entry "id-3" Example.later "oid-3" Example.calm_day
                 Example.two_entries)))
  <> snd (create_mood_entry "id-3" Example.later "oid-3" Example.calm_day
            Example.two_entries).
Proof.
  split_and!; [reflexivity..|]. vm_compute. discriminate.
Qed.

(** ** Update and delete *)

(** C5, as the code has it.  [update_mood_entry] raises the 404 error when
    no stored document has the id, leaving the collection as it was.  When
    a document has the id, the first such document gets the mood type,
    emoji and notes (or the empty string) of the request and the current
    instant cut to whole milliseconds, keeps its [_id], id and date, every
    other document is untouched, and the updated entry, as stored, is
    returned. *)
Theorem update_mood_entry_spec utcnow mood_id mood :
  (forall c, absent "id" (VStr mood_id) c ->
     update_mood_entry utcnow mood_id mood c
     = (c, Raise (HTTPException 404 "Mood entry not found"))) /\
  (forall c1 oid r c2,
     absent "id" (VStr mood_id) c1 ->
     MoodEntryResponse.id r = mood_id ->
     valid_date (MoodEntryResponse.date r) = true ->
     let r' := updated utcnow mood r in
     update_mood_entry utcnow mood_id mood (c1 ++ doc_of oid r :: c2)
     = (c1 ++ doc_of oid r' :: c2, Return r') /\
     MoodEntryResponse.id r' = MoodEntryResponse.id r /\
     MoodEntryResponse.date r' = MoodEntryResponse.date r /\
     MoodEntryResponse.mood_type r' = MoodEntry.mood_type mood /\
     MoodEntryResponse.emoji r' = MoodEntry.emoji mood /\
     MoodEntryResponse.notes r'
     = match MoodEntry.notes mood with Some s => s | None => "" end /\
     MoodEntryResponse.timestamp r' = truncate_ms utcnow /\
     (microsecond utcnow mod 1000 = 0 -> MoodEntryResponse.timestamp r' = utcnow)).
Proof.
  split.
  - apply update_mood_entry_absent.
  - intros c1 oid r c2 Hc1 Hid Hvalid r'. split_and!; try reflexivity.
    + by apply update_mood_entry_first.
    + intros Hms. by apply truncate_ms_whole.
Qed.

Lemma update_mood_entry_spec_witness :
  update_mood_entry Example.later "id-7" Example.calm_day Example.two_entries
  = (Example.two_entries, Raise (HTTPException 404 "Mood entry not found")) /\
  update_mood_entry Example.later "id-1" Example.calm_day Example.two_entries
  = ([ doc_of "oid-1" (updated Example.later Example.calm_day
                         (created "id-1" Example.morning Example.happy_day));
       doc_of "oid-2" (created "id-2" Example.evening Example.sad_day) ],
     Return (updated Example.later Example.calm_day
               (created "id-1" Example.morning Example.happy_day))).
Proof.
  split.
  - apply (proj1 (update_mood_entry_spec Example.later "id-7" Example.calm_day)).
    apply (bool_decide_unpack _). vm_compute. exact I.
  - apply (proj2 (update_mood_entry_spec Example.later "id-1" Example.calm_day)
             [] "oid-1" (created "id-1" Example.morning Example.happy_day)
             [doc_of "oid-2" (created "id-2" Example.evening Example.sad_day)]).
    + constructor.
    + reflexivity.
    + reflexivity.
Defined.

(** C5 as stated fails on the timestamp: an update made at an instant with
    42 microseconds returns, and stores, the instant without them. *)
Lemma update_mood_entry_counterexample :
  exists r',
    snd (update_mood_entry Example.later "id-1" Example.calm_day
           Example.two_entries) = Return r' /\
    microsecond Example.later = 42 /\
    microsecond (MoodEntryResponse.timestamp r') = 0 /\
    MoodEntryResponse.timestamp r' <> Example.later.
Proof.
  eexists. split_and!; [reflexivity..|]. vm_compute. discriminate.
Qed.

(** C6.  [delete_mood_entry] on an id some document has removes the first
    document with that id, leaves every other document in place and returns
    the message "Mood entry deleted successfully"; when the id was held by
    that document only, [get_mood_entry] on it then raises the 404 error.
    On an id no document has it raises the 404 error and the collection is
    as it was. *)
Theorem delete_mood_entry_spec mood_id :
  (forall c1 (d : Doc) c2,
     absent "id" (VStr mood_id) c1 ->
     d !! "id" = Some (VStr mood_id) ->
     delete_mood_entry mood_id (c1 ++ d :: c2)
     = (c1 ++ c2, Return {[ "message" := "Mood entry deleted successfully" ]}) /\
     (absent "id" (VStr mood_id) c2 ->
      get_mood_entry mood_id (c1 ++ c2)
      = (c1 ++ c2, Raise (HTTPException 404 "Mood entry not found")))) /\
  (forall c, absent "id" (VStr mood_id) c ->
     delete_mood_entry mood_id c
     = (c, Raise (HTTPException 404 "Mood entry not found"))).
Proof.
  split.
  - intros c1 d c2 Hc1 Hd. split.
    + by apply delete_mood_entry_first.
    + intros Hc2. apply get_mood_entry_absent. by apply absent_app.
  - apply delete_mood_entry_absent.
Qed.

Lemma delete_mood_entry_spec_witness :
  delete_mood_entry "id-1" Example.two_entries
  = ([doc_of "oid-2" (created "id-2" Example.evening Example.sad_day)],
     Return {[ "message" := "Mood entry deleted successfully" ]}) /\
  get_mood_entry "id-1" [doc_of "oid-2" (created "id-2" Example.evening Example.sad_day)]
  = ([doc_of "oid-2" (created "id-2" Example.evening Example.sad_day)],
     Raise (HTTPException 404 "Mood entry not found")) /\
  delete_mood_entry "id-7" Example.two_entries
  = (Example.two_entries, Raise (HTTPException 404 "Mood entry not found")).
Proof.
  pose proof (proj1 (delete_mood_entry_spec "id-1") []
                (doc_of "oid-1" (created "id-1" Example.morning Example.happy_day))
                [doc_of "oid-2" (created "id-2" Example.evening Example.sad_day)])
    as H.
  destruct H as [H1 H2]; [constructor | reflexivity |].
  split; [exact H1 | split].
  - apply H2. apply (bool_decide_unpack _). vm_compute. exact I.
  - apply (proj2 (delete_mood_entry_spec "id-7")).
    apply (bool_decide_unpack _). vm_compute. exact I.
Defined.

(** ** Invariants of the reachable collections *)

(** C2.  In every collection reachable from the empty one by create, update
    and delete requests, no two documents have the same date, so the
    entries it holds have pairwise distinct calendar dates; and
    [update_mood_entry] leaves the date of every document as it was. *)
Theorem one_entry_per_date c :
  reachable c ->
  NoDup (dates c) /\
  (exists es, c = store_of es /\
              NoDup (map (fun e : Entry => MoodEntryResponse.date e.2) es)) /\
  forall utcnow mood_id mood,
    dates (fst (update_mood_entry utcnow mood_id mood c)) = dates c.
Proof.
  intros Hc. pose proof (reachable_dates_NoDup c Hc) as Hnd.
  split_and!; [done| |intros; apply update_mood_entry_dates].
  destruct (reachable_store_of c Hc) as (es & -> & _). exists es. split; [done|].
  apply (NoDup_fmap_1 (fun d : date => Some (VStr (date_isoformat d)))).
  unfold dates, store_of in Hnd. by rewrite map_map in Hnd |- *.
Qed.

Lemma one_entry_per_date_witness :
  reachable Example.two_entries /\ NoDup (dates Example.two_entries).
Proof.
  assert (reachable Example.two_entries) as H.
  { apply reachable_step; [apply reachable_step; [apply reachable_empty|]|];
      reflexivity. }
  split; [exact H|]. exact (proj1 (one_entry_per_date _ H)).
Defined.

(** C10.  In every reachable collection the notes of every document are a
    string; and a request whose notes are null makes [create_mood_entry] and
    [update_mood_entry] write the empty string: every document of the
    resulting collection was there before or has the empty string as
    notes. *)
Theorem notes_never_null c :
  reachable c ->
  Forall has_notes c /\
  (forall uuid4 utcnow oid mood (d : Doc),
     MoodEntry.notes mood = None ->
     d ∈ fst (create_mood_entry uuid4 utcnow oid mood c) ->
     d ∈ c \/ d !! "notes" = Some (VStr "")) /\
  (forall utcnow mood_id mood (d : Doc),
     MoodEntry.notes mood = None ->
     d ∈ fst (update_mood_entry utcnow mood_id mood c) ->
     d ∈ c \/ d !! "notes" = Some (VStr "")).
Proof.
  intros Hc. split; [by apply reachable_notes|]. split.
  - intros uuid4 utcnow oid mood d Hnotes.
    destruct (create_mood_entry_effect uuid4 utcnow oid mood c) as [->|[_ ->]];
      [auto|].
    intros [?|Hd%list_elem_of_singleton]%elem_of_app; [auto|]. right.
    subst d. rewrite doc_of_notes. cbn. by rewrite Hnotes.
  - intros utcnow mood_id mood d Hnotes. rewrite update_mood_entry_store.
    intros [?|(d0 & _ & ->)]%update_one_elem; [auto|]. right.
    apply lookup_union_Some_l. by rewrite Hnotes.
Qed.

Lemma notes_never_null_witness :
  reachable Example.two_entries /\ Forall has_notes Example.two_entries.
Proof.
  assert (reachable Example.two_entries) as H.
  { apply reachable_step; [apply reachable_step; [apply reachable_empty|]|];
      reflexivity. }
  split; [exact H|]. exact (proj1 (notes_never_null _ H)).
Defined.

(** ** Listing *)

Lemma store_of_Permutation_inv c es :
  c ≡ₚ store_of es -> exists es', c = store_of es' /\ es' ≡ₚ es.
Proof.
  intros H. apply Permutation_map_inv in H as (es' & -> & H).
  exists es'. split; [done | by symmetry].
Qed.

Lemma find_sort_desc_store es :
  exists es', find_sort_desc "date" (store_of es) = store_of es' /\ es' ≡ₚ es /\
              Sorted (descending "date") (store_of es').
Proof.
  destruct (store_of_Permutation_inv (find_sort_desc "date" (store_of es)) es)
    as (es' & E & Hperm).
  { apply merge_sort_Permutation. }
  exists es'. repeat split; [done..|]. rewrite <- E.
  apply Sorted_merge_sort, _.
Qed.

Lemma descending_newest_first e1 e2 :
  valid_entry e1 -> valid_entry e2 ->
  descending "date" (doc_of e1.1 e1.2) (doc_of e2.1 e2.2) ->
  newest_first e1.2 e2.2.
Proof.
  unfold valid_entry, descending, newest_first, date_le, field, bson_leb.
  intros H1 H2. rewrite !doc_of_date. cbn [default from_option id bson_compare].
  rewrite (date_isoformat_compare _ _ H2 H1).
  by destruct (date_compare _ _).
Qed.

Lemma sorted_docs_newest_first es :
  Forall valid_entry es ->
  Sorted (descending "date") (store_of es) ->
  Sorted newest_first (map snd es).
Proof.
  induction 1 as [|e es He Hes IH]; cbn; [constructor|].
  intros [Hsorted Hhd]%Sorted_inv. constructor; [auto|].
  destruct Hes as [|e' es He' _]; cbn in *; constructor.
  apply HdRel_inv in Hhd. by apply descending_newest_first.
Qed.

(** The loop of [get_mood_entries]: each document, its [_id] popped, goes
    through the response model. *)
Lemma for_each_responses es :
  Forall valid_entry es ->
  for_each (fun mood : Doc => MoodEntryResponse_new (delete "_id" mood)) (store_of es)
  = Return (map snd es).
Proof.
  induction 1 as [|e es He _ IH]; [done|].
  change (store_of (e :: es)) with (doc_of e.1 e.2 :: store_of es).
  cbn [for_each map]. by rewrite (MoodEntryResponse_new_popped _ _ He), IH.
Qed.

Lemma get_mood_entries_sorted es :
  Forall valid_entry es ->
  exists es', es' ≡ₚ es /\
    find_sort_desc "date" (store_of es) = store_of es' /\
    get_mood_entries (store_of es) = (store_of es, Return (map snd es')) /\
    StronglySorted newest_first (map snd es').
Proof.
  intros Hes. destruct (find_sort_desc_store es) as (es' & E & Hperm & Hsorted).
  assert (Forall valid_entry es') as Hes' by (by rewrite Hperm).
  exists es'. repeat split; [done..| |].
  - unfold get_mood_entries. run_handler.
    by rewrite E, (for_each_responses _ Hes').
  - apply Sorted_StronglySorted; [apply _|].
    by apply sorted_docs_newest_first.
Qed.

(** C4.  Whatever the order of the stored entries, [get_mood_entries]
    returns all of them, each once, the newest date first: the date of an
    entry is on or after the date of every entry that follows it. *)
Theorem list_newest_first es :
  Forall valid_entry es ->
  exists rs,
    get_mood_entries (store_of es) = (store_of es, Return rs) /\
    rs ≡ₚ map snd es /\
    StronglySorted newest_first rs.
Proof.
  intros Hes.
  destruct (get_mood_entries_sorted es Hes) as (es' & Hperm & _ & Hrun & Hsorted).
  exists (map snd es'). repeat split; [done| |done].
  by apply Permutation_map.
Qed.

Lemma list_newest_first_witness :
  exists rs,
    get_mood_entries (store_of Example.entries)
    = (store_of Example.entries, Return rs) /\
    rs ≡ₚ map snd Example.entries /\
    StronglySorted newest_first rs.
Proof.
  apply (list_newest_first Example.entries).
  repeat constructor.
Defined.

(** ** The CSV writer *)

Lemma append_cons c (s t : string) : String c s +:+ t = String c (s +:+ t).
Proof. reflexivity. Qed.

Lemma append_nil (t : string) : "" +:+ t = t.
Proof. reflexivity. Qed.

Lemma append_assoc (s1 s2 s3 : string) : (s1 +:+ s2) +:+ s3 = s1 +:+ (s2 +:+ s3).
Proof. induction s1 as [|c s1 IH]; [done|]. rewrite !append_cons. by f_equal. Qed.

Lemma is_special_false c :
  Text.is_special c = false ->
  Ascii.eqb c Text.dquote = false /\ Ascii.eqb c Text.LF = false.
Proof.
  unfold Text.is_special. intros H.
  repeat (apply orb_false_iff in H as [H ?]). auto.
Qed.

(** A field written bare has no quote and no line terminator in it: a
    reader passes over it without leaving its state. *)
Lemma records_bare_field b f rest :
  Text.needs_quote f = false ->
  Text.count_records_from b (f +:+ rest) = Text.count_records_from b rest.
Proof.
  induction f as [|c f IH]; [done|]. rewrite append_cons.
  cbn [Text.needs_quote Text.count_records_from].
  intros [Hc Hf]%orb_false_iff. apply is_special_false in Hc as [-> ->].
  cbn [andb]. auto.
Qed.

(** Between its quotes, an escaped field is passed over too: a doubled
    quote leaves and re-enters the quoted state, a line terminator inside
    quotes does not end the record. *)
Lemma records_escaped_field f rest :
  Text.count_records_from true (Text.escape f +:+ String Text.dquote rest)
  = Text.count_records_from false rest.
Proof.
  induction f as [|c f IH]; cbn [Text.escape].
  - rewrite append_nil. cbn [Text.count_records_from]. by rewrite Ascii.eqb_refl.
  - destruct (Ascii.eqb c Text.dquote) eqn:E; rewrite !append_cons;
      cbn [Text.count_records_from].
    + by rewrite !Ascii.eqb_refl.
    + rewrite E. by rewrite andb_false_r.
Qed.

Lemma records_field f rest :
  Text.count_records_from false (Text.quote_field f +:+ rest)
  = Text.count_records_from false rest.
Proof.
  unfold Text.quote_field. destruct (Text.needs_quote f) eqn:E.
  - rewrite append_cons, append_assoc, append_cons, append_nil.
    cbn [Text.count_records_from].
    rewrite Ascii.eqb_refl. cbn [negb]. apply records_escaped_field.
  - by apply records_bare_field.
Qed.

Lemma records_fields fs rest :
  Text.count_records_from false (Text.join_fields fs +:+ rest)
  = Text.count_records_from false rest.
Proof.
  induction fs as [|f [|f' fs] IH]; [done|apply records_field|].
  change (Text.join_fields (f :: f' :: fs))
    with (Text.quote_field f +:+ String Text.comma (Text.join_fields (f' :: fs))).
  rewrite append_assoc, records_field, append_cons. exact IH.
Qed.

(** Every row written ends exactly one record. *)
Lemma records_row fs rest :
  Text.count_records_from false (Text.render_row fs +:+ rest)
  = S (Text.count_records_from false rest).
Proof.
  assert (Text.count_records_from false ((Text.join_fields fs +:+ Text.CRLF) +:+ rest)
          = S (Text.count_records_from false rest)) as Hgen.
  { by rewrite append_assoc, records_fields. }
  destruct fs as [|[|c f] [|f' fs]]; done.
Qed.

Lemma records_csv_text rows :
  Text.count_records (csv_text rows) = length rows.
Proof.
  unfold Text.count_records. induction rows as [|row rows IH]; [done|].
  cbn [csv_text length]. by rewrite records_row, IH.
Qed.









(** ** Line breaks in the cells of a row *)











(** ** Export *)

Lemma export_row_doc oid r : export_row (doc_of oid r) = Return (csv_row r).
Proof. reflexivity. Qed.

Lemma write_rows_store output es :
  write_rows output (store_of es)
  = Return (output +:+ csv_text (map csv_row (map snd es))).
Proof.
  revert output. induction es as [|e es IH]; intros output.
  - cbn. f_equal. induction output as [|c s IHs]; [done|].
    rewrite append_cons. by f_equal.
  - change (store_of (e :: es)) with (doc_of e.1 e.2 :: store_of es).
    cbn [write_rows map csv_text]. rewrite export_row_doc. cbn [obind].
    rewrite IH. unfold Text.writerow. by rewrite append_assoc.
Qed.

Lemma export_moods_csv_store es es' :
  find_sort_desc "date" (store_of es) = store_of es' ->
  export_moods_csv (store_of es)
  = (store_of es,
     Return {| body := csv_text (csv_header :: map csv_row (map snd es'));
               media_type := "text/csv";
               headers := [("Content-Disposition",
                            "attachment; filename=mood_tracker_export.csv")] |}).
Proof.
  intros E. unfold export_moods_csv. run_handler.
  rewrite E, write_rows_store. unfold Text.writerow. by rewrite append_nil.
Qed.




(** ** Grouping and counting *)

Lemma count_for_cons v g gs :
  count_for v (g :: gs) = if decide (_id g = v) then count g else count_for v gs.
Proof.
  unfold count_for. cbn [List.find].
  destruct (decide (_id g = v)) as [E|E].
  - by rewrite bool_decide_true.
  - by rewrite bool_decide_false.
Qed.

Lemma count_for_elem g gs :
  NoDup (map _id gs) -> g ∈ gs -> count_for (_id g) gs = count g.
Proof.
  induction gs as [|g0 gs IH]; [by intros _ ?%elem_of_nil|].
  intros [Hg0 Hnd]%NoDup_cons [->|Hin]%elem_of_cons; rewrite count_for_cons.
  - by rewrite decide_True.
  - rewrite decide_False; [auto|].
    intros E. apply Hg0. rewrite E. by apply (list_elem_of_fmap_2 _id).
Qed.

Lemma count_for_positive v gs :
  0 < count_for v gs -> v ∈ map _id gs.
Proof.
  induction gs as [|g gs IH]; [cbn; lia|].
  rewrite count_for_cons. cbn [map]. destruct (decide (_id g = v)) as [<-|_].
  - intros _. left.
  - intros H. right. auto.
Qed.

Lemma group_add_count v' v gs :
  count_for v' (group_add v gs)
  = count_for v' gs + (if decide (v' = v) then 1 else 0).
Proof.
  induction gs as [|g gs IH]; cbn [group_add].
  - rewrite count_for_cons. cbn.
    destruct (decide (v = v')), (decide (v' = v)); done || congruence.
  - destruct (decide (_id g = v)) as [E|E]; rewrite !count_for_cons; cbn [_id count].
    + destruct (decide (_id g = v')), (decide (v' = v)); lia || congruence.
    + destruct (decide (_id g = v')), (decide (v' = v)); lia || congruence || auto.
Qed.

Lemma group_add_keys v gs :
  map _id (group_add v gs)
  = if decide (v ∈ map _id gs) then map _id gs else map _id gs ++ [v].
Proof.
  induction gs as [|g gs IH]; cbn [group_add map].
  - rewrite decide_False; [done | apply not_elem_of_nil].
  - destruct (decide (_id g = v)) as [E|E]; cbn [map _id].
    + rewrite decide_True; [done|]. rewrite E. left.
    + rewrite IH. destruct (decide (v ∈ map _id gs)) as [Hin|Hin].
      * rewrite decide_True; [done | by right].
      * rewrite decide_False; [done|].
        intros [?|?]%elem_of_cons; congruence.
Qed.

Lemma group_add_NoDup v gs : NoDup (map _id gs) -> NoDup (map _id (group_add v gs)).
Proof.
  intros H. rewrite group_add_keys. destruct (decide _) as [|Hin]; [done|].
  apply NoDup_app. repeat split; [done| |apply NoDup_singleton].
  intros x Hx ->%list_elem_of_singleton. done.
Qed.

Lemma group_add_keys_from v gs x :
  x ∈ map _id (group_add v gs) -> x = v \/ x ∈ map _id gs.
Proof.
  rewrite group_add_keys. destruct (decide _); [auto|].
  intros [?|?%list_elem_of_singleton]%elem_of_app; auto.
Qed.

Lemma grouped_count k v c acc :
  count_for v (fold_left (fun acc d => group_add (field k d) acc) c acc)
  = count_for v acc + N.of_nat (occurrences v (map (field k) c)).
Proof.
  revert acc. induction c as [|d c IH]; intros acc; cbn [fold_left map].
  - cbn. lia.
  - rewrite IH, group_add_count.
    unfold occurrences. rewrite filter_cons.
    destruct (decide (v = field k d)), (decide (field k d = v));
      cbn [length]; lia || congruence.
Qed.

Lemma grouped_NoDup k c acc :
  NoDup (map _id acc) ->
  NoDup (map _id (fold_left (fun acc d => group_add (field k d) acc) c acc)).
Proof.
  revert acc. induction c as [|d c IH]; intros acc H; [done|].
  apply IH. by apply group_add_NoDup.
Qed.

Lemma grouped_keys_from k c acc x :
  x ∈ map _id (fold_left (fun acc d => group_add (field k d) acc) c acc) ->
  x ∈ map _id acc \/ x ∈ map (field k) c.
Proof.
  revert acc. induction c as [|d c IH]; intros acc; [auto|].
  intros [H|H]%IH.
  - apply group_add_keys_from in H as [->|H]; [right; left | auto].
  - right. by right.
Qed.

(** One result per distinct value of the field, with the number of
    documents that have it. *)
Lemma group_count_spec k c :
  NoDup (map _id (group_count k c)) /\
  (forall g, g ∈ group_count k c ->
     _id g ∈ map (field k) c /\
     count g = N.of_nat (occurrences (_id g) (map (field k) c))) /\
  (forall d, d ∈ c -> field k d ∈ map _id (group_count k c)).
Proof.
  assert (NoDup (map _id (group_count k c))) as Hnd.
  { apply grouped_NoDup. constructor. }
  assert (forall v, count_for v (group_count k c)
                    = N.of_nat (occurrences v (map (field k) c))) as Hcount.
  { intros v. unfold group_count. by rewrite grouped_count. }
  split_and!; [done| |].
  - intros g Hg. split.
    + apply (list_elem_of_fmap_2 _id) in Hg.
      apply grouped_keys_from in Hg as [[]%elem_of_nil|]. done.
    + by rewrite <- Hcount, count_for_elem.
  - intros d Hd. apply count_for_positive. rewrite Hcount.
    assert (field k d ∈ filter (fun x => x = field k d) (map (field k) c)) as Hin.
    { apply list_elem_of_filter. split; [done|]. by apply (list_elem_of_fmap_2 (field k)). }
    unfold occurrences. destruct (filter _ _); [by apply elem_of_nil in Hin|].
    cbn [length]. lia.
Qed.

(** ** Statistics *)

Lemma mood_types_of_store es :
  map (field "mood_type") (store_of es)
  = map (fun e : Entry => VStr (MoodEntryResponse.mood_type e.2)) es.
Proof. unfold store_of. rewrite map_map. by apply map_ext. Qed.


Lemma mood_info_for_Some v m :
  mood_info_for v = Some m -> m ∈ MOOD_OPTIONS /\ VStr (type m) = v.
Proof.
  unfold mood_info_for. intros [Hin Hm]%find_some.
  split; [by apply list_elem_of_In | by apply bool_decide_eq_true in Hm].
Qed.

(** The types of the mood options are pairwise distinct: looking one up by
    its type gives that option. *)
Lemma mood_info_for_option m :
  m ∈ MOOD_OPTIONS -> mood_info_for (VStr (type m)) = Some m.
Proof.
  unfold MOOD_OPTIONS. intros Hm.
  repeat (apply elem_of_cons in Hm as [->|Hm]; [vm_compute; reflexivity|]).
  by apply elem_of_nil in Hm.
Qed.

Lemma stat_of_str g t :
  _id g = VStr t -> stat_of g = Return (mood_stat t (count g)).
Proof.
  intros E. unfold stat_of, mood_stat. rewrite E.
  by destruct (mood_info_for (VStr t)).
Qed.

Lemma for_each_stat_of gs :
  Forall (fun g => exists t, _id g = VStr t) gs ->
  for_each stat_of gs
  = Return (map (fun g => mood_stat (key_str (_id g)) (count g)) gs).
Proof.
  induction 1 as [|g gs [t Hg] _ IH]; [done|].
  cbn [for_each map]. rewrite (stat_of_str g t Hg), IH. by rewrite Hg.
Qed.




(** The example of the specification: happy, happy, sad. *)
Lemma stats_happy_happy_sad :
  snd (get_mood_stats (store_of Example.happy_happy_sad))
  = Return {| Stats.total_entries := 3;
              Stats.mood_distribution :=
                [ mood_stat "happy" 2; mood_stat "sad" 1 ] |}.
Proof. vm_compute. reflexivity. Qed.

(** A mood type outside the options gets the placeholder and its own name,
    title-cased. *)
Lemma stats_unknown_type :
  stat_of {| _id := VStr "so_so"; count := 4 |}
  = Return {| MoodStat.mood_type := VStr "so_so"; MoodStat.count := 4;
              MoodStat.emoji := placeholder_emoji; MoodStat.label := "So_So" |}.
Proof. vm_compute. reflexivity. Qed.

(** ** What a response shows *)

(** The dict [create_mood_entry] hands to the response model carries the
    [_id] the driver added; the model drops it. *)
Lemma create_response_drops_oid oid r :
  valid_date (MoodEntryResponse.date r) = true ->
  doc_of oid r !! "_id" = Some (VObjectId oid) /\
  MoodEntryResponse_new (doc_of oid r) = Return r /\
  response_json r !! "_id" = None.
Proof. intros H. split_and!; [done | by apply MoodEntryResponse_new_doc | done]. Qed.

(** A stored document has the six public fields and the [_id]. *)
Lemma doc_of_fields oid r : dom (doc_of oid r) = public_fields ∪ {[ "_id" ]}.
Proof.
  unfold doc_of, public_fields. rewrite !dom_insert_L, dom_singleton_L. set_solver.
Qed.

Lemma store_of_elem (d : Doc) es :
  d ∈ store_of es -> exists e, e ∈ es /\ d = doc_of e.1 e.2.
Proof.
  unfold store_of. intros (e & -> & He)%list_elem_of_fmap. eauto.
Qed.

(** What an entry document shows is what the response model sends for the
    entry. *)
Lemma public_view_doc_of oid r : public_view (doc_of oid r) = response_json r.
Proof.
  apply map_eq. intros k. unfold public_view.
  rewrite lookup_fmap, map_lookup_filter.
  destruct (decide (k ∈ public_fields)) as [Hk|Hk].
  - unfold public_fields in Hk.
    repeat (apply elem_of_union in Hk as [Hk|Hk]);
      apply elem_of_singleton in Hk as ->; reflexivity.
  - assert (response_json r !! k = None) as ->.
    { apply not_elem_of_dom. by rewrite response_json_fields. }
    destruct (doc_of oid r !! k) as [x|]; [|done]. cbn.
    by rewrite option_guard_False.
Qed.

Lemma shows_doc_of oid r : shows r (doc_of oid r).
Proof.
  unfold shows. split_and!.
  - rewrite doc_of_fields. set_solver.
  - by rewrite public_view_doc_of.
  - apply response_json_fields.
  - apply response_json_no_oid.
Qed.

(** C9.  On a collection of entries, every entry returned by
    [create_mood_entry], [get_mood_entries], [get_mood_entry] and
    [update_mood_entry] shows a document of the collection (for create, the
    dict whose millisecond form was just appended), which carries an [_id]:
    the response has exactly the six fields id, date, mood_type, emoji,
    notes and timestamp, each with the value the document has for it, and
    the [_id] of the document is not among them.  For [get_mood_entry] and
    [update_mood_entry] the document is one with the requested id. *)
Theorem responses_show_public_fields es :
  Forall valid_entry es ->
  (forall uuid4 utcnow oid mood r,
     valid_date (MoodEntry.date mood) = true ->
     snd (create_mood_entry uuid4 utcnow oid mood (store_of es)) = Return r ->
     exists d : Doc,
       fst (create_mood_entry uuid4 utcnow oid mood (store_of es))
       = store_of es ++ [bson_doc d] /\
       shows r d) /\
  (forall rs,
     snd (get_mood_entries (store_of es)) = Return rs ->
     Forall (fun r => exists d : Doc, d ∈ store_of es /\ shows r d) rs) /\
  (forall mood_id r,
     snd (get_mood_entry mood_id (store_of es)) = Return r ->
     exists d : Doc,
       d ∈ store_of es /\ d !! "id" = Some (VStr mood_id) /\ shows r d) /\
  (forall utcnow mood_id mood r,
     snd (update_mood_entry utcnow mood_id mood (store_of es)) = Return r ->
     exists d : Doc,
       d ∈ fst (update_mood_entry utcnow mood_id mood (store_of es)) /\
       d !! "id" = Some (VStr mood_id) /\ shows r d).
Proof.
  intros Hes. split_and!.
  - intros uuid4 utcnow oid mood r Hvalid.
    destruct (find_one "date" (VStr (date_isoformat (MoodEntry.date mood)))
                (store_of es)) as [d0|] eqn:Hfind.
    + by rewrite (create_mood_entry_duplicate _ _ _ _ _ _ Hfind).
    + rewrite (create_mood_entry_new _ _ _ _ _ Hfind Hvalid). cbn [fst snd].
      intros [= <-]. exists (doc_of oid (created uuid4 utcnow mood)). split.
      * by rewrite bson_doc_of.
      * apply shows_doc_of.
  - intros rs. destruct (get_mood_entries_sorted es Hes)
      as (es' & Hperm & _ & -> & _). cbn [snd]. intros [= <-].
    apply Forall_forall. intros r (e & -> & He)%list_elem_of_fmap.
    exists (doc_of e.1 e.2). split; [|apply shows_doc_of].
    unfold store_of. apply list_elem_of_fmap. exists e. by rewrite <- Hperm.
  - intros mood_id r.
    destruct (first_match "id" (VStr mood_id) (store_of es))
      as [Habs|(c1 & d & c2 & E & Hc1 & Hd)].
    + by rewrite (get_mood_entry_absent _ _ Habs).
    + assert (d ∈ store_of es) as Hin.
      { rewrite E. apply elem_of_app. right. left. }
      destruct (store_of_elem _ _ Hin) as (e & He & ->).
      pose proof Hd as Hid. rewrite doc_of_id in Hid. injection Hid as Hid.
      rewrite E, (get_mood_entry_first mood_id c1 e.1 e.2 c2 Hc1 Hid).
      * cbn [snd]. intros [= <-]. exists (doc_of e.1 e.2).
        split_and!; [by rewrite <- E | done | apply shows_doc_of].
      * rewrite Forall_forall in Hes. by apply Hes.
  - intros utcnow mood_id mood r.
    destruct (first_match "id" (VStr mood_id) (store_of es))
      as [Habs|(c1 & d & c2 & E & Hc1 & Hd)].
    + by rewrite (update_mood_entry_absent _ _ _ _ Habs).
    + assert (d ∈ store_of es) as Hin.
      { rewrite E. apply elem_of_app. right. left. }
      destruct (store_of_elem _ _ Hin) as (e & He & ->).
      pose proof Hd as Hid. rewrite doc_of_id in Hid. injection Hid as Hid.
      rewrite E, (update_mood_entry_first utcnow mood_id mood c1 e.1 e.2 c2 Hc1 Hid).
      * cbn [fst snd]. intros [= <-].
        exists (doc_of e.1 (updated utcnow mood e.2)). split_and!.
        -- apply elem_of_app. right. left.
        -- by rewrite doc_of_id.
        -- apply shows_doc_of.
      * rewrite Forall_forall in Hes. by apply Hes.
Qed.

Lemma responses_show_public_fields_witness :
  exists d : Doc,
    d ∈ store_of Example.entries /\ d !! "id" = Some (VStr "id-2") /\
    shows (created "id-2" Example.evening Example.sad_day) d.
Proof.
  assert (Forall valid_entry Example.entries) as H by (repeat constructor).
  exact (proj1 (proj2 (proj2 (responses_show_public_fields Example.entries H)))
           "id-2" _ eq_refl).
Defined.

(** * Further properties of the handlers *)

(** ** What the handlers raise *)

Lemma str_field_raises (kw : Doc) k e :
  str_field kw k = Raise e -> exists msg, e = ValidationError msg.
Proof. unfold str_field. destruct (kw !! k) as [[]|]; intros [= <-]; eauto. Qed.

Lemma date_field_raises (kw : Doc) k e :
  date_field kw k = Raise e -> exists msg, e = ValidationError msg.
Proof.
  unfold date_field. destruct (kw !! k) as [[| s | |]|];
    try destruct (parse_date s); intros [= <-]; eauto.
Qed.

Lemma datetime_field_raises (kw : Doc) k e :
  datetime_field kw k = Raise e -> exists msg, e = ValidationError msg.
Proof. unfold datetime_field. destruct (kw !! k) as [[]|]; intros [= <-]; eauto. Qed.

Lemma MoodEntryResponse_new_raises (kw : Doc) e :
  MoodEntryResponse_new kw = Raise e -> exists msg, e = ValidationError msg.
Proof.
  unfold MoodEntryResponse_new, obind.
  destruct (str_field kw "id") eqn:H1; [|intros [= <-]; eauto using str_field_raises].
  destruct (date_field kw "date") eqn:H2; [|intros [= <-]; eauto using date_field_raises].
  destruct (str_field kw "mood_type") eqn:H3; [|intros [= <-]; eauto using str_field_raises].
  destruct (str_field kw "emoji") eqn:H4; [|intros [= <-]; eauto using str_field_raises].
  destruct (str_field kw "notes") eqn:H5; [|intros [= <-]; eauto using str_field_raises].
  destruct (datetime_field kw "timestamp") eqn:H6;
    [discriminate|intros [= <-]; eauto using datetime_field_raises].
Qed.

Lemma for_each_raises {A B} (f : A -> outcome B) xs x e :
  x ∈ xs -> f x = Raise e -> exists e', for_each f xs = Raise e'.
Proof.
  induction xs as [|y xs IH]; [by intros ?%elem_of_nil|].
  intros [->|Hin]%elem_of_cons Hx; cbn [for_each].
  - rewrite Hx. eauto.
  - destruct (f y); [|eauto]. destruct (IH Hin Hx) as [e' ->]. eauto.
Qed.

(** The dict [create_mood_entry] validates has every field; only its date
    string can be refused. *)
Lemma created_dict_validates oid r :
  (exists r', MoodEntryResponse_new (doc_of oid r) = Return r') \/
  MoodEntryResponse_new (doc_of oid r)
  = Raise (ValidationError "date: invalid date format").
Proof.
  unfold MoodEntryResponse_new, str_field, date_field, datetime_field.
  rewrite doc_of_id, doc_of_date, doc_of_mood_type, doc_of_emoji, doc_of_notes,
    doc_of_timestamp. cbn [obind].
  destruct (parse_date _) as [d|]; [left; eauto | by right].
Qed.

Lemma reraise_http_status {A} prefix e c :
  (forall status detail, e = HTTPException status detail -> status = 404) ->
  raises_only [404; 500] (snd (@reraise_http A prefix e c)).
Proof.
  intros H. destruct e as [status detail| | |]; cbn; [|set_solver..].
  rewrite (H status detail eq_refl). set_solver.
Qed.

(** X1.  Whatever the collection holds, a handler answers with a value or
    with an [HTTPException]: [create_mood_entry] with status 400 or 500,
    [get_mood_entry], [update_mood_entry] and [delete_mood_entry] with 404
    or 500, [get_mood_entries], [export_moods_csv] and [get_mood_stats] with
    500.  No other exception leaves a handler. *)
Theorem handlers_raise_http_only c :
  (forall uuid4 utcnow oid mood,
     raises_only [400; 500] (snd (create_mood_entry uuid4 utcnow oid mood c))) /\
  raises_only [500] (snd (get_mood_entries c)) /\
  (forall mood_id, raises_only [404; 500] (snd (get_mood_entry mood_id c))) /\
  (forall utcnow mood_id mood,
     raises_only [404; 500] (snd (update_mood_entry utcnow mood_id mood c))) /\
  (forall mood_id, raises_only [404; 500] (snd (delete_mood_entry mood_id c))) /\
  raises_only [500] (snd (export_moods_csv c)) /\
  raises_only [500] (snd (get_mood_stats c)).
Proof.
  split_and!.
  - intros uuid4 utcnow oid mood. unfold create_mood_entry. run_handler.
    destruct (find_one _ _ c) as [d|] eqn:Hfind.
    + rewrite (find_one_truthy _ _ _ _ Hfind), duplicate_detail_reraised.
      cbn. set_solver.
    + cbn [truthy]. cbv iota. rewrite or_empty_default, insert_one_mood_dict.
      destruct (created_dict_validates oid (created uuid4 utcnow mood))
        as [[r' ->]| ->]; [done|].
      vm_compute. set_solver.
  - unfold get_mood_entries. run_handler.
    destruct (for_each _ _); cbn; [done | set_solver].
  - intros mood_id. unfold get_mood_entry. run_handler.
    destruct (find_one _ _ c) as [d|] eqn:Hfind.
    + rewrite (find_one_truthy _ _ _ _ Hfind). cbn [negb]. cbv iota.
      destruct (MoodEntryResponse_new _) as [r|e] eqn:E; [done|].
      apply reraise_http_status. intros status detail ->.
      by apply MoodEntryResponse_new_raises in E as [msg ?].
    + cbn. set_solver.
  - intros utcnow mood_id mood. unfold update_mood_entry. run_handler.
    destruct (find_one _ _ c) as [d|] eqn:Hfind.
    + rewrite (find_one_truthy _ _ _ _ Hfind). cbn [negb]. cbv iota.
      destruct (find_one _ _ (update_one _ _ _ _)) as [d'|]; [|cbn; set_solver].
      destruct (MoodEntryResponse_new _) as [r|e] eqn:E; [done|].
      apply reraise_http_status. intros status detail ->.
      by apply MoodEntryResponse_new_raises in E as [msg ?].
    + cbn. set_solver.
  - intros mood_id. unfold delete_mood_entry. run_handler.
    destruct (delete_one _ _ c) as [n c']. destruct (n =? 0); cbn; [set_solver | done].
  - unfold export_moods_csv. run_handler.
    destruct (write_rows _ _); cbn; [done | set_solver].
  - unfold get_mood_stats, count_documents. run_handler.
    destruct (for_each _ _); cbn; [done | set_solver].
Qed.

(** ** Reading changes nothing *)

(** X2.  [get_mood_entries], [get_mood_entry], [export_moods_csv] and
    [get_mood_stats] return the collection as they found it, whatever it
    holds and whether they answer or raise. *)
Theorem read_handlers_keep_collection c :
  fst (get_mood_entries c) = c /\
  (forall mood_id, fst (get_mood_entry mood_id c) = c) /\
  fst (export_moods_csv c) = c /\
  fst (get_mood_stats c) = c.
Proof.
  split_and!.
  - unfold get_mood_entries. run_handler. by destruct (for_each _ _).
  - intros mood_id. unfold get_mood_entry. run_handler.
    destruct (find_one _ _ c) as [d|] eqn:Hfind; [|done].
    rewrite (find_one_truthy _ _ _ _ Hfind). cbn [negb]. cbv iota.
    by destruct (MoodEntryResponse_new _) as [?|[]].
  - unfold export_moods_csv. run_handler. by destruct (write_rows _ _).
  - unfold get_mood_stats. run_handler. by destruct (for_each _ _).
Qed.

(** ** A document that is not an entry *)

Lemma sorted_elem k (d : Doc) c : d ∈ c -> d ∈ find_sort_desc k c.
Proof. intros H. unfold find_sort_desc. by rewrite merge_sort_Permutation. Qed.

(** X3.  [get_mood_entries] is all or nothing: when one stored document
    does not pass the response model (a field missing, notes null), the
    whole listing is answered with 500 and the error text of the model, not
    with the entries that do pass. *)
Theorem list_all_or_nothing c (d : Doc) e :
  d ∈ c ->
  MoodEntryResponse_new (delete "_id" d) = Raise e ->
  exists msg,
    get_mood_entries c
    = (c, Raise (HTTPException 500 ("Error fetching mood entries: " +:+ msg))).
Proof.
  intros Hin Hd. unfold get_mood_entries. run_handler.
  destruct (for_each_raises
              (fun mood : Doc => MoodEntryResponse_new (delete "_id" mood))
              (find_sort_desc "date" c) d e (sorted_elem _ _ _ Hin) Hd) as [e' ->].
  eauto.
Qed.

Lemma list_all_or_nothing_witness :
  exists msg,
    get_mood_entries (Example.two_entries ++ [Foreign.bare])
    = (Example.two_entries ++ [Foreign.bare],
       Raise (HTTPException 500 ("Error fetching mood entries: " +:+ msg))).
Proof.
  apply (list_all_or_nothing _ Foreign.bare
           (ValidationError "notes: field required")).
  - apply (bool_decide_unpack _). vm_compute. exact I.
  - reflexivity.
Defined.

(** ** Looking an entry up *)

(** X4.  On a collection of entries, [get_mood_entry] answers 404 exactly
    when no document has the id; otherwise it returns a stored entry with
    that id (the first one in the collection). *)
Theorem get_mood_entry_found_or_404 es mood_id :
  Forall valid_entry es ->
  (absent "id" (VStr mood_id) (store_of es) /\
   get_mood_entry mood_id (store_of es)
   = (store_of es, Raise (HTTPException 404 "Mood entry not found"))) \/
  (exists e, e ∈ es /\ MoodEntryResponse.id e.2 = mood_id /\
     get_mood_entry mood_id (store_of es) = (store_of es, Return e.2)).
Proof.
  intros Hes.
  destruct (first_match "id" (VStr mood_id) (store_of es))
    as [Habs|(c1 & d & c2 & E & Hc1 & Hd)].
  - left. split; [done | by apply get_mood_entry_absent].
  - right. assert (d ∈ store_of es) as Hin.
    { rewrite E. apply elem_of_app. right. left. }
    apply store_of_elem in Hin as (e & He & ->). exists e.
    rewrite doc_of_id in Hd. injection Hd as Hd.
    split_and!; [done..|]. rewrite E.
    apply get_mood_entry_first; [done..|].
    rewrite Forall_forall in Hes. by apply Hes.
Qed.

Lemma get_mood_entry_found_or_404_witness :
  exists e, e ∈ Example.entries /\ MoodEntryResponse.id e.2 = "id-2" /\
    get_mood_entry "id-2" (store_of Example.entries)
    = (store_of Example.entries, Return e.2).
Proof.
  destruct (get_mood_entry_found_or_404 Example.entries "id-2")
    as [[Habs _]|H].
  - repeat constructor.
  - exfalso. revert Habs. apply (bool_decide_unpack _). vm_compute. exact I.
  - exact H.
Defined.

(** ** Create decides on the date alone *)

(** X5.  For any collection, [create_mood_entry] has two outcomes and the
    stored dates decide between them: if some document has the date, the
    answer is the 400 error and nothing is stored; if none has, the entry
    is returned and its document, with the instant cut to whole
    milliseconds, is appended after the existing documents.  Ids play no
    part. *)
Theorem create_decides_on_date uuid4 utcnow oid mood c :
  valid_date (MoodEntry.date mood) = true ->
  let taken :=
    exists d : Doc, d ∈ c /\
      d !! "date" = Some (VStr (date_isoformat (MoodEntry.date mood))) in
  (taken /\
   create_mood_entry uuid4 utcnow oid mood c
   = (c, Raise (HTTPException 400 "Mood entry already exists for this date"))) \/
  (~ taken /\
   create_mood_entry uuid4 utcnow oid mood c
   = (c ++ [doc_of oid (stored_entry (created uuid4 utcnow mood))],
      Return (created uuid4 utcnow mood))).
Proof.
  intros Hvalid taken.
  destruct (find_one "date" (VStr (date_isoformat (MoodEntry.date mood))) c)
    as [d|] eqn:Hfind.
  - left. split.
    + exists d. by apply find_one_Some in Hfind.
    + by apply create_mood_entry_duplicate with d.
  - right. split.
    + intros (d & Hin & Hd). apply find_one_None in Hfind.
      unfold absent in Hfind. rewrite Forall_forall in Hfind.
      by apply (Hfind d).
    + by apply create_mood_entry_new.
Qed.

Lemma create_decides_on_date_witness :
  create_mood_entry "id-1" Example.later "oid-3" Example.calm_day Example.two_entries
  = (Example.two_entries
       ++ [doc_of "oid-3"
             (stored_entry (created "id-1" Example.later Example.calm_day))],
     Return (created "id-1" Example.later Example.calm_day)).
Proof.
  destruct (create_decides_on_date "id-1" Example.later "oid-3" Example.calm_day
              Example.two_entries) as [[_ H]|[_ H]].
  - reflexivity.
  - discriminate H.
  - exact H.
Defined.

(** ** Operations in sequence *)

(** X6.  After an update that succeeds, [get_mood_entry] on the same id
    returns what the update returned, and a second update overwrites the
    first: the entry left is the one the second update alone would leave. *)
Theorem update_then_get utcnow mood_id mood c1 oid r c2 :
  absent "id" (VStr mood_id) c1 ->
  MoodEntryResponse.id r = mood_id ->
  valid_date (MoodEntryResponse.date r) = true ->
  let c := c1 ++ doc_of oid r :: c2 in
  let c' := fst (update_mood_entry utcnow mood_id mood c) in
  get_mood_entry mood_id c' = (c', snd (update_mood_entry utcnow mood_id mood c)) /\
  forall utcnow' mood',
    update_mood_entry utcnow' mood_id mood' c'
    = update_mood_entry utcnow' mood_id mood' c.
Proof.
  intros Hc1 Hid Hvalid c c'. subst c c'.
  rewrite (update_mood_entry_first _ _ _ _ _ _ _ Hc1 Hid Hvalid). cbn [fst snd].
  split.
  - by apply get_mood_entry_first.
  - intros utcnow' mood'.
    by rewrite !update_mood_entry_first.
Qed.

Lemma update_then_get_witness :
  let c' := fst (update_mood_entry Example.later "id-2" Example.calm_day
                   Example.two_entries) in
  get_mood_entry "id-2" c'
  = (c', snd (update_mood_entry Example.later "id-2" Example.calm_day
                Example.two_entries)).
Proof.
  pose proof (update_then_get Example.later "id-2" Example.calm_day
                [doc_of "oid-1" (created "id-1" Example.morning Example.happy_day)]
                "oid-2" (created "id-2" Example.evening Example.sad_day) []) as H.
  destruct H as [H _].
  - apply (bool_decide_unpack _). vm_compute. exact I.
  - reflexivity.
  - reflexivity.
  - exact H.
Defined.

(** X7.  Deleting the entry of a date frees the date: when the deleted
    document was the only one with its date, a create for that date then
    succeeds and the new entry is stored last, with its instant cut to
    whole milliseconds. *)
Theorem delete_then_create mood_id uuid4 utcnow oid' mood c1 oid r c2 :
  absent "id" (VStr mood_id) c1 ->
  MoodEntryResponse.id r = mood_id ->
  MoodEntry.date mood = MoodEntryResponse.date r ->
  valid_date (MoodEntryResponse.date r) = true ->
  absent "date" (VStr (date_isoformat (MoodEntryResponse.date r))) (c1 ++ c2) ->
  let c := c1 ++ doc_of oid r :: c2 in
  create_mood_entry uuid4 utcnow oid' mood c
  = (c, Raise (HTTPException 400 "Mood entry already exists for this date")) /\
  create_mood_entry uuid4 utcnow oid' mood (fst (delete_mood_entry mood_id c))
  = (c1 ++ c2 ++ [doc_of oid' (stored_entry (created uuid4 utcnow mood))],
     Return (created uuid4 utcnow mood)).
Proof.
  intros Hc1 Hid Hdate Hvalid Habs c. subst c. split.
  - apply create_mood_entry_duplicate with (doc_of oid r).
    rewrite Hdate.
    apply absent_app in Habs as [H1 _].
    apply find_one_first; [done | apply doc_of_date].
  - rewrite (delete_mood_entry_first mood_id c1 (doc_of oid r) c2 Hc1)
      by (by rewrite doc_of_id, Hid).
    cbn [fst]. rewrite create_mood_entry_new.
    + by rewrite <- app_assoc.
    + rewrite Hdate. by apply find_one_absent.
    + by rewrite Hdate.
Qed.

Lemma delete_then_create_witness :
  create_mood_entry "id-9" Example.later "oid-9" Example.long_day
    (fst (delete_mood_entry "id-1" Example.two_entries))
  = ([ doc_of "oid-2" (created "id-2" Example.evening Example.sad_day);
       doc_of "oid-9"
         (stored_entry (created "id-9" Example.later Example.long_day)) ],
     Return (created "id-9" Example.later Example.long_day)).
Proof.
  pose proof (delete_then_create "id-1" "id-9" Example.later "oid-9" Example.long_day
                [] "oid-1" (created "id-1" Example.morning Example.happy_day)
                [doc_of "oid-2" (created "id-2" Example.evening Example.sad_day)])
    as H.
  destruct H as [_ H].
  - constructor.
  - reflexivity.
  - reflexivity.
  - reflexivity.
  - apply (bool_decide_unpack _). vm_compute. exact I.
  - exact H.
Defined.

(** ** What update and delete leave alone *)

Lemma set_fields_other (x3 x4 x5 x6 : Value) k :
  k ∉ updated_fields ->
  ({[ "mood_type" := x3; "emoji" := x4; "notes" := x5; "timestamp" := x6 ]} : Doc)
    !! k = None.
Proof.
  unfold updated_fields. intros Hk.
  repeat (rewrite lookup_insert_ne by (intros <-; apply Hk; repeat constructor)).
  apply lookup_singleton_ne. intros <-. apply Hk. repeat constructor.
Qed.

(** X8.  Whatever the collection holds, [update_mood_entry] keeps the
    number of documents and, in every document, every field other than
    mood_type, emoji, notes and timestamp: ids, dates and [_id]s stay where
    they were, also when the update fails. *)
Theorem update_keeps_other_fields utcnow mood_id mood c k :
  k ∉ updated_fields ->
  column k (fst (update_mood_entry utcnow mood_id mood c)) = column k c /\
  length (fst (update_mood_entry utcnow mood_id mood c)) = length c.
Proof.
  intros Hk. rewrite update_mood_entry_store.
  assert (column k (update_one "id" (VStr mood_id)
            {[ "mood_type" := VStr (MoodEntry.mood_type mood);
               "emoji" := VStr (MoodEntry.emoji mood);
               "notes" := VStr (default "" (MoodEntry.notes mood));
               "timestamp" := VDatetime utcnow ]} c) = column k c) as H.
  { apply update_one_other_field. by apply set_fields_other. }
  split; [done|]. apply (f_equal length) in H. unfold column in H.
  by rewrite !length_map in H.
Qed.

Lemma update_keeps_other_fields_witness :
  column "_id" (fst (update_mood_entry Example.later "id-2" Example.calm_day
                       Example.two_entries))
  = column "_id" Example.two_entries.
Proof.
  apply (update_keeps_other_fields Example.later "id-2" Example.calm_day
           Example.two_entries "_id").
  apply (bool_decide_unpack _). vm_compute. exact I.
Defined.

(** X9.  Whatever the collection holds, [delete_mood_entry] removes at most
    one document and never one with another id: what is left is the
    collection in its order with one document taken out when the answer is
    the success message, and the collection itself when the answer is an
    error. *)
Theorem delete_removes_at_most_one mood_id c :
  let c' := fst (delete_mood_entry mood_id c) in
  sublist c' c /\
  (forall m, snd (delete_mood_entry mood_id c) = Return m ->
             length c = S (length c')) /\
  (forall e, snd (delete_mood_entry mood_id c) = Raise e -> c' = c) /\
  (forall d : Doc, d ∈ c -> d !! "id" <> Some (VStr mood_id) -> d ∈ c').
Proof.
  cbn zeta.
  destruct (first_match "id" (VStr mood_id) c) as [H|(c1 & d & c2 & -> & Hc1 & Hd)].
  - rewrite (delete_mood_entry_absent _ _ H). cbn [fst snd].
    split_and!; [done | intros m [=] | done | done].
  - rewrite (delete_mood_entry_first _ _ _ _ Hc1 Hd). cbn [fst snd].
    split_and!.
    + apply sublist_app; [done|]. by apply sublist_cons.
    + intros _ _. rewrite !length_app. cbn [length]. lia.
    + intros e [=].
    + intros d' [?|[->|?]%elem_of_cons]%elem_of_app Hd';
        [apply elem_of_app; by left | done | apply elem_of_app; by right].
Qed.

Lemma delete_removes_at_most_one_witness :
  length Example.two_entries
  = S (length (fst (delete_mood_entry "id-2" Example.two_entries))).
Proof.
  exact (proj1 (proj2 (delete_removes_at_most_one "id-2" Example.two_entries))
           _ eq_refl).
Defined.

(** ** Dates as stored *)

(** X10.  The string stored for a date ([date.isoformat()]) orders, as a
    string, exactly as the date orders among dates, differs for different
    dates, and is read back as the same date by the response model: sorting
    and the duplicate check on the stored strings are sorting and the
    duplicate check on calendar dates. *)
Theorem stored_dates_behave_as_dates d1 d2 :
  valid_date d1 = true -> valid_date d2 = true ->
  String.compare (date_isoformat d1) (date_isoformat d2) = date_compare d1 d2 /\
  (date_isoformat d1 = date_isoformat d2 <-> d1 = d2) /\
  parse_date (date_isoformat d1) = Some d1.
Proof.
  intros H1 H2. split_and!.
  - by apply date_isoformat_compare.
  - split; [by apply date_isoformat_inj | by intros ->].
  - by apply parse_date_isoformat.
Qed.

Lemma stored_dates_behave_as_dates_witness :
  String.compare (date_isoformat (Date 999 12 31)) (date_isoformat (Date 1000 1 1))
  = Lt.
Proof.
  rewrite (proj1 (stored_dates_behave_as_dates (Date 999 12 31) (Date 1000 1 1)
                    eq_refl eq_refl)).
  reflexivity.
Defined.

(** ** Create, then list *)

(** X11.  After a create that finds the date free, [get_mood_entries]
    lists the entries that were there and the new one as it is stored (its
    instant cut to whole milliseconds), each once, newest date first. *)
Theorem create_then_list uuid4 utcnow oid mood es :
  Forall valid_entry es ->
  valid_date (MoodEntry.date mood) = true ->
  absent "date" (VStr (date_isoformat (MoodEntry.date mood))) (store_of es) ->
  let c' := fst (create_mood_entry uuid4 utcnow oid mood (store_of es)) in
  exists rs,
    get_mood_entries c' = (c', Return rs) /\
    rs ≡ₚ stored_entry (created uuid4 utcnow mood) :: map snd es /\
    StronglySorted newest_first rs.
Proof.
  intros Hes Hvalid Habs c'. subst c'.
  rewrite create_mood_entry_new by (by try apply find_one_absent). cbn [fst].
  replace (store_of es ++ [doc_of oid (stored_entry (created uuid4 utcnow mood))])
    with (store_of (es ++ [(oid, stored_entry (created uuid4 utcnow mood))]))
    by (unfold store_of; by rewrite map_app).
  destruct (get_mood_entries_sorted
              (es ++ [(oid, stored_entry (created uuid4 utcnow mood))]))
    as (es' & Hperm & _ & Hrun & Hsorted).
  { apply Forall_app. split; [done|]. by repeat constructor. }
  exists (map snd es'). split_and!; [done| |done].
  rewrite Hperm, map_app. cbn [map snd].
  by rewrite <- Permutation_cons_append.
Qed.

Lemma create_then_list_witness :
  let c' := fst (create_mood_entry "id-4" Example.later "oid-4" Example.calm_day
                   (store_of [("oid-1", created "id-1" Example.morning Example.happy_day)]))
  in
  exists rs,
    get_mood_entries c' = (c', Return rs) /\
    rs ≡ₚ [ stored_entry (created "id-4" Example.later Example.calm_day);
            created "id-1" Example.morning Example.happy_day ].
Proof.
  destruct (create_then_list "id-4" Example.later "oid-4" Example.calm_day
              [("oid-1", created "id-1" Example.morning Example.happy_day)])
    as (rs & H1 & H2 & _).
  - repeat constructor.
  - reflexivity.
  - apply (bool_decide_unpack _). vm_compute. exact I.
  - exists rs. split; [exact H1 | exact H2].
Defined.

(** ** Statistics add up *)

Lemma for_each_Forall2 {A B} (f : A -> outcome B) xs ys :
  for_each f xs = Return ys -> Forall2 (fun x y => f x = Return y) xs ys.
Proof.
  revert ys. induction xs as [|x xs IH]; intros ys; cbn [for_each].
  - intros [= <-]. constructor.
  - destruct (f x) as [y|] eqn:Hx; [|discriminate].
    destruct (for_each f xs) as [ys'|]; [|discriminate].
    intros [= <-]. constructor; auto.
Qed.

Lemma stat_of_count g s :
  stat_of g = Return s -> MoodStat.count s = count g.
Proof.
  unfold stat_of, obind.
  destruct (mood_info_for (_id g)); [by intros [= <-]|].
  destruct (_id g); try discriminate. by intros [= <-].
Qed.

Lemma sum_group_counts_add v gs :
  sum_group_counts (group_add v gs) = sum_group_counts gs + 1.
Proof.
  induction gs as [|g gs IH]; cbn [group_add sum_group_counts foldr]; [cbn; lia|].
  destruct (decide (_id g = v)); cbn [sum_group_counts foldr count].
  - fold (sum_group_counts gs). lia.
  - fold (sum_group_counts (group_add v gs)) (sum_group_counts gs). lia.
Qed.

Lemma sum_group_counts_grouped k c acc :
  sum_group_counts (fold_left (fun acc d => group_add (field k d) acc) c acc)
  = sum_group_counts acc + N.of_nat (length c).
Proof.
  revert acc. induction c as [|d c IH]; intros acc; cbn [fold_left length]; [lia|].
  rewrite IH, sum_group_counts_add. lia.
Qed.

Lemma sum_group_counts_Permutation gs1 gs2 :
  gs1 ≡ₚ gs2 -> sum_group_counts gs1 = sum_group_counts gs2.
Proof.
  unfold sum_group_counts.
  induction 1 as [|g gs1 gs2 _ IH|g1 g2 gs|gs1 gs2 gs3 _ IH1 _ IH2];
    cbn [foldr]; lia.
Qed.

(** Every document is counted in exactly one group. *)
Lemma aggregate_counts_all k c :
  sum_group_counts (aggregate_group_sort k c) = N.of_nat (length c).
Proof.
  unfold aggregate_group_sort.
  rewrite (sum_group_counts_Permutation _ _ (merge_sort_Permutation _ _)).
  unfold group_count. by rewrite sum_group_counts_grouped.
Qed.

Lemma sum_counts_stats gs dist :
  Forall2 (fun g s => stat_of g = Return s) gs dist ->
  sum_counts dist = sum_group_counts gs.
Proof.
  induction 1 as [|g s gs dist Hg _ IH]; [done|].
  cbn [sum_counts sum_group_counts foldr].
  fold (sum_counts dist) (sum_group_counts gs).
  by rewrite (stat_of_count _ _ Hg), IH.
Qed.

(** X12.  Whenever [get_mood_stats] answers, for any collection, the
    counts of [mood_distribution] add up to [total_entries]: every entry is
    counted under exactly one mood type. *)
Theorem stats_counts_add_up c st :
  snd (get_mood_stats c) = Return st ->
  sum_counts (Stats.mood_distribution st) = Stats.total_entries st.
Proof.
  unfold get_mood_stats. run_handler. cbn [snd].
  destruct (for_each stat_of _) as [dist|] eqn:E; cbn; [|discriminate].
  intros [= <-]. cbn [Stats.mood_distribution Stats.total_entries].
  apply for_each_Forall2 in E.
  rewrite (sum_counts_stats _ _ E). apply aggregate_counts_all.
Qed.

Lemma stats_counts_add_up_witness :
  exists st,
    snd (get_mood_stats (store_of Example.happy_happy_sad)) = Return st /\
    sum_counts (Stats.mood_distribution st) = 3.
Proof.
  eexists. split; [vm_compute; reflexivity|].
  exact (stats_counts_add_up (store_of Example.happy_happy_sad) _ eq_refl).
Defined.

(** ** The three views have the same size *)

Lemma for_each_length {A B} (f : A -> outcome B) xs ys :
  for_each f xs = Return ys -> length ys = length xs.
Proof. intros H%for_each_Forall2. symmetry. by eapply Forall2_length. Qed.

Lemma write_rows_Return output cursor s :
  write_rows output cursor = Return s ->
  exists rows, s = output +:+ csv_text rows /\ length rows = length cursor.
Proof.
  revert output. induction cursor as [|mood cursor IH]; intros output;
    cbn [write_rows].
  - intros [= <-]. exists []. split; [|done]. cbn [csv_text].
    induction output as [|ch o IHo]; [done|]. rewrite append_cons. by f_equal.
  - destruct (export_row mood) as [row|]; cbn [obind]; [|discriminate].
    intros (rows & -> & Hlen)%IH. exists (row :: rows). split.
    + unfold Text.writerow. cbn [csv_text]. by rewrite append_assoc.
    + cbn [length]. by rewrite Hlen.
Qed.

Lemma find_sort_desc_length k c : length (find_sort_desc k c) = length c.
Proof. unfold find_sort_desc. by rewrite merge_sort_Permutation. Qed.

(** X13.  Whenever they answer, for any collection of N documents, the
    listing has N entries, the export has N+1 records and the statistics
    give N as [total_entries]: no view drops or repeats a document. *)
Theorem views_agree_on_size c :
  (forall rs, snd (get_mood_entries c) = Return rs -> length rs = length c) /\
  (forall resp, snd (export_moods_csv c) = Return resp ->
     Text.count_records (body resp) = S (length c)) /\
  (forall st, snd (get_mood_stats c) = Return st ->
     Stats.total_entries st = N.of_nat (length c)).
Proof.
  split_and!.
  - intros rs. unfold get_mood_entries. run_handler. cbn [snd].
    destruct (for_each _ _) as [rs'|] eqn:E; cbn; [|discriminate].
    intros [= <-]. apply for_each_length in E.
    by rewrite E, find_sort_desc_length.
  - intros resp. unfold export_moods_csv. run_handler. cbn [snd].
    destruct (write_rows _ _) as [s|] eqn:E; cbn; [|discriminate].
    intros [= <-]. cbn [body].
    apply write_rows_Return in E as (rows & -> & Hlen).
    unfold Text.writerow. rewrite append_nil.
    change (Text.render_row ?h +:+ csv_text rows) with (csv_text (h :: rows)).
    rewrite records_csv_text. cbn [length].
    by rewrite Hlen, find_sort_desc_length.
  - intros st. unfold get_mood_stats, count_documents. run_handler. cbn [snd].
    destruct (for_each _ _) as [dist|]; cbn; [|discriminate].
    by intros [= <-].
Qed.

Lemma views_agree_on_size_witness :
  exists rs resp st,
    snd (get_mood_entries (store_of Example.entries)) = Return rs /\
    snd (export_moods_csv (store_of Example.entries)) = Return resp /\
    snd (get_mood_stats (store_of Example.entries)) = Return st /\
    length rs = 3%nat /\
    Text.count_records (body resp) = 4%nat /\
    Stats.total_entries st = 3.
Proof.
  destruct (views_agree_on_size (store_of Example.entries)) as (H1 & H2 & H3).
  do 3 eexists. split_and!; [vm_compute; reflexivity..| | |].
  - exact (H1 _ eq_refl).
  - exact (H2 _ eq_refl).
  - exact (H3 _ eq_refl).
Defined.

(** ** Documents the export and the statistics cannot take *)

Lemma export_row_missing (d : Doc) k :
  k ∈ ["date"; "mood_type"; "emoji"; "notes"; "timestamp"] ->
  d !! k = None -> exists e, export_row d = Raise e.
Proof.
  unfold export_row, getitem, obind. intros Hk Hd.
  repeat (apply elem_of_cons in Hk as [->|Hk]);
    [..|by apply elem_of_nil in Hk];
    repeat match goal with
           | |- context [match ?d' !! ?k' with _ => _ end] =>
               first [rewrite Hd | destruct (d' !! k') as [[]|]]
           end; eauto.
Qed.

Lemma write_rows_raises output cursor (d : Doc) e :
  d ∈ cursor -> export_row d = Raise e ->
  exists e', write_rows output cursor = Raise e'.
Proof.
  revert output. induction cursor as [|mood cursor IH]; intros output;
    [by intros ?%elem_of_nil|].
  intros [->|Hin]%elem_of_cons Hd; cbn [write_rows].
  - rewrite Hd. cbn. eauto.
  - destruct (export_row mood); cbn [obind]; eauto.
Qed.

(** X14.  [export_moods_csv] reads the five fields by key: when one stored
    document lacks one of date, mood_type, emoji, notes or timestamp, the
    export is answered with 500, for the whole collection, and no CSV is
    produced. *)
Theorem export_needs_every_field c (d : Doc) k :
  d ∈ c ->
  k ∈ ["date"; "mood_type"; "emoji"; "notes"; "timestamp"] ->
  d !! k = None ->
  exists msg,
    export_moods_csv c
    = (c, Raise (HTTPException 500 ("Error exporting mood data: " +:+ msg))).
Proof.
  intros Hin Hk Hd. destruct (export_row_missing d k Hk Hd) as [e He].
  unfold export_moods_csv. run_handler.
  destruct (write_rows_raises
              (Text.writerow "" ["Date"; "Mood"; "Emoji"; "Notes"; "Timestamp"])
              (find_sort_desc "date" c) d e (sorted_elem _ _ _ Hin) He) as [e' ->].
  eauto.
Qed.

Lemma export_needs_every_field_witness :
  exists msg,
    export_moods_csv (Example.two_entries ++ [Foreign.bare])
    = (Example.two_entries ++ [Foreign.bare],
       Raise (HTTPException 500 ("Error exporting mood data: " +:+ msg))).
Proof.
  apply (export_needs_every_field _ Foreign.bare "notes").
  - apply (bool_decide_unpack _). vm_compute. exact I.
  - apply (bool_decide_unpack _). vm_compute. exact I.
  - reflexivity.
Defined.

Lemma mood_info_for_not_str v :
  (forall s, v <> VStr s) -> mood_info_for v = None.
Proof.
  intros Hv. destruct (mood_info_for v) as [m|] eqn:E; [|done].
  apply mood_info_for_Some in E as [_ E]. by destruct (Hv (type m)).
Qed.

Lemma stat_of_not_str g :
  (forall s, _id g <> VStr s) -> exists e, stat_of g = Raise e.
Proof.
  intros Hv. unfold stat_of. rewrite (mood_info_for_not_str _ Hv).
  destruct (_id g) as [|s| |]; cbn; eauto. by destruct (Hv s).
Qed.

(** X15.  [get_mood_stats] calls [title] on a group key that matches no
    mood option: when one stored document has no mood_type, or one that is
    not a string, the statistics are answered with 500. *)
Theorem stats_need_mood_type c (d : Doc) :
  d ∈ c ->
  (forall s, d !! "mood_type" <> Some (VStr s)) ->
  exists msg,
    get_mood_stats c
    = (c, Raise (HTTPException 500 ("Error fetching mood stats: " +:+ msg))).
Proof.
  intros Hin Hd.
  assert (forall s, field "mood_type" d <> VStr s) as Hv.
  { intros s. unfold field. destruct (d !! "mood_type") as [v|] eqn:E; cbn.
    - intros ->. by apply (Hd s).
    - discriminate. }
  destruct (group_count_spec "mood_type" c) as (_ & _ & Hcover).
  pose proof (Hcover d Hin) as Hkey.
  apply list_elem_of_fmap in Hkey as (g & Hg & Hgin).
  assert (g ∈ aggregate_group_sort "mood_type" c) as Hsorted.
  { unfold aggregate_group_sort. by rewrite merge_sort_Permutation. }
  rewrite Hg in Hv. destruct (stat_of_not_str g Hv) as [e He].
  unfold get_mood_stats. run_handler.
  destruct (for_each_raises stat_of _ g e Hsorted He) as [e' ->].
  eauto.
Qed.

Lemma stats_need_mood_type_witness :
  exists msg,
    get_mood_stats (Example.two_entries ++ [Foreign.untyped])
    = (Example.two_entries ++ [Foreign.untyped],
       Raise (HTTPException 500 ("Error fetching mood stats: " +:+ msg))).
Proof.
  apply (stats_need_mood_type _ Foreign.untyped).
  - apply (bool_decide_unpack _). vm_compute. exact I.
  - intros s. discriminate.
Defined.

(** ** No 500 on the collections the handlers build *)

Lemma aggregate_keys_of_store es g :
  g ∈ aggregate_group_sort "mood_type" (store_of es) -> exists t, _id g = VStr t.
Proof.
  unfold aggregate_group_sort. rewrite merge_sort_Permutation. intros Hg.
  destruct (group_count_spec "mood_type" (store_of es)) as (_ & Hcount & _).
  destruct (Hcount g Hg) as [Hin _]. rewrite mood_types_of_store in Hin.
  apply list_elem_of_fmap in Hin as (e & -> & _). eauto.
Qed.

Lemma get_mood_stats_answers es :
  exists st, get_mood_stats (store_of es) = (store_of es, Return st).
Proof.
  unfold get_mood_stats. run_handler.
  rewrite for_each_stat_of; [eauto|].
  apply Forall_forall. apply aggregate_keys_of_store.
Qed.

Lemma store_of_first_match es c1 (d : Doc) c2 :
  Forall valid_entry es -> store_of es = c1 ++ d :: c2 ->
  exists oid r, d = doc_of oid r /\ valid_date (MoodEntryResponse.date r) = true.
Proof.
  intros Hes E. assert (d ∈ store_of es) as Hin.
  { rewrite E. apply elem_of_app. right. left. }
  apply store_of_elem in Hin as (e & He & ->). exists e.1, e.2.
  split; [done|]. rewrite Forall_forall in Hes. by apply Hes.
Qed.

Lemma get_mood_entry_answers es mood_id :
  Forall valid_entry es ->
  raises_only [404] (snd (get_mood_entry mood_id (store_of es))).
Proof.
  intros Hes.
  destruct (first_match "id" (VStr mood_id) (store_of es))
    as [Habs|(c1 & d & c2 & E & Hc1 & Hd)].
  - rewrite get_mood_entry_absent by done. cbn. left.
  - destruct (store_of_first_match es c1 d c2 Hes E) as (oid & r & -> & Hvalid).
    rewrite doc_of_id in Hd. injection Hd as Hd.
    by rewrite E, get_mood_entry_first.
Qed.

Lemma update_mood_entry_answers es utcnow mood_id mood :
  Forall valid_entry es ->
  raises_only [404] (snd (update_mood_entry utcnow mood_id mood (store_of es))).
Proof.
  intros Hes.
  destruct (first_match "id" (VStr mood_id) (store_of es))
    as [Habs|(c1 & d & c2 & E & Hc1 & Hd)].
  - rewrite update_mood_entry_absent by done. cbn. left.
  - destruct (store_of_first_match es c1 d c2 Hes E) as (oid & r & -> & Hvalid).
    rewrite doc_of_id in Hd. injection Hd as Hd.
    by rewrite E, update_mood_entry_first.
Qed.

Lemma delete_mood_entry_answers mood_id c :
  raises_only [404] (snd (delete_mood_entry mood_id c)).
Proof.
  destruct (first_match "id" (VStr mood_id) c) as [H|(c1 & d & c2 & -> & Hc1 & Hd)].
  - rewrite delete_mood_entry_absent by done. cbn. left.
  - by rewrite (delete_mood_entry_first _ _ _ _ Hc1 Hd).
Qed.

(** X16.  On every collection reachable through the handlers no request
    is answered with 500: listing, export and statistics always answer,
    get, update and delete answer or raise 404, and a create (with a date
    that exists) answers or raises 400. *)
Theorem reachable_never_500 c :
  reachable c ->
  (forall uuid4 utcnow oid mood,
     valid_date (MoodEntry.date mood) = true ->
     raises_only [400] (snd (create_mood_entry uuid4 utcnow oid mood c))) /\
  raises_only [] (snd (get_mood_entries c)) /\
  (forall mood_id, raises_only [404] (snd (get_mood_entry mood_id c))) /\
  (forall utcnow mood_id mood,
     raises_only [404] (snd (update_mood_entry utcnow mood_id mood c))) /\
  (forall mood_id, raises_only [404] (snd (delete_mood_entry mood_id c))) /\
  raises_only [] (snd (export_moods_csv c)) /\
  raises_only [] (snd (get_mood_stats c)).
Proof.
  intros (es & -> & Hes)%reachable_store_of. split_and!.
  - intros uuid4 utcnow oid mood Hvalid.
    destruct (find_one "date" (VStr (date_isoformat (MoodEntry.date mood)))
                (store_of es)) as [d|] eqn:Hfind.
    + rewrite (create_mood_entry_duplicate _ _ _ _ _ _ Hfind). cbn. left.
    + by rewrite create_mood_entry_new.
  - destruct (get_mood_entries_sorted es Hes) as (es' & _ & _ & -> & _). done.
  - intros mood_id. by apply get_mood_entry_answers.
  - intros utcnow mood_id mood. by apply update_mood_entry_answers.
  - intros mood_id. apply delete_mood_entry_answers.
  - destruct (find_sort_desc_store es) as (es' & E & _).
    by rewrite (export_moods_csv_store es es' E).
  - by destruct (get_mood_stats_answers es) as [st ->].
Qed.

Lemma reachable_never_500_witness :
  reachable Example.two_entries /\
  raises_only [] (snd (get_mood_stats Example.two_entries)).
Proof.
  assert (reachable Example.two_entries) as H.
  { apply reachable_step; [apply reachable_step; [apply reachable_empty|]|];
      reflexivity. }
  split; [exact H|].
  exact (proj2 (proj2 (proj2 (proj2 (proj2 (proj2 (reachable_never_500 _ H))))))).
Defined.

(** ** Ids are unique when generated ids are new *)

Lemma absent_not_in_ids v c : absent "id" v c -> Some v ∉ ids c.
Proof.
  unfold absent, ids. rewrite Forall_forall. intros H Hin.
  apply list_elem_of_fmap in Hin as (d & Hd & Hin). by apply (H d).
Qed.

Lemma not_in_ids_absent v c : Some v ∉ ids c -> absent "id" v c.
Proof.
  unfold absent, ids. rewrite Forall_forall. intros H d Hd E. apply H.
  apply list_elem_of_fmap. eauto.
Qed.

Lemma reachable_fresh_ids c : reachable_fresh c -> NoDup (ids c).
Proof.
  induction 1 as [|c [uuid4 utcnow oid mood|utcnow mood_id mood|mood_id] _ IH _ Hfresh].
  - constructor.
  - cbn [step]. cbn [fresh_request] in Hfresh.
    destruct (create_mood_entry_effect uuid4 utcnow oid mood c) as [->|[_ ->]];
      [done|].
    unfold ids. rewrite map_app. apply NoDup_app.
    split_and!; [done| |apply NoDup_singleton].
    intros x Hx ->%list_elem_of_singleton.
    by apply (absent_not_in_ids _ _ Hfresh).
  - cbn [step]. rewrite update_mood_entry_store. unfold ids.
    by rewrite update_one_other_field.
  - cbn [step]. rewrite delete_mood_entry_store.
    eapply sublist_NoDup; [exact IH|]. unfold ids.
    apply (fmap_sublist (fun d : Doc => d !! "id")), delete_one_sublist.
Qed.

(** X17.  When every generated id is new to the collection, all stored
    ids are different in every reachable collection; so a delete that
    succeeds leaves no document with that id, and [get_mood_entry] on it
    raises 404. *)
Theorem fresh_ids_are_unique c :
  reachable_fresh c ->
  NoDup (ids c) /\
  forall mood_id m,
    snd (delete_mood_entry mood_id c) = Return m ->
    get_mood_entry mood_id (fst (delete_mood_entry mood_id c))
    = (fst (delete_mood_entry mood_id c),
       Raise (HTTPException 404 "Mood entry not found")).
Proof.
  intros Hc. pose proof (reachable_fresh_ids c Hc) as Hnd. split; [done|].
  intros mood_id m.
  destruct (first_match "id" (VStr mood_id) c) as [H|(c1 & d & c2 & -> & Hc1 & Hd)].
  - by rewrite delete_mood_entry_absent.
  - rewrite (delete_mood_entry_first _ _ _ _ Hc1 Hd). cbn [fst]. intros _.
    apply get_mood_entry_absent, absent_app. split; [done|].
    apply not_in_ids_absent. unfold ids in Hnd. rewrite map_app in Hnd.
    cbn [map] in Hnd. rewrite Hd in Hnd.
    apply NoDup_app in Hnd as (_ & _ & [Hnot _]%NoDup_cons). done.
Qed.

Lemma fresh_ids_are_unique_witness :
  reachable_fresh Example.two_entries /\ NoDup (ids Example.two_entries).
Proof.
  assert (reachable_fresh Example.two_entries) as H.
  { apply reachable_fresh_step;
      [apply reachable_fresh_step; [apply reachable_fresh_empty| |]| |].
    - reflexivity.
    - constructor.
    - reflexivity.
    - apply (bool_decide_unpack _). vm_compute. exact I. }
  split; [exact H|]. exact (proj1 (fresh_ids_are_unique _ H)).
Defined.

(** ** The Mood cell and the mood label *)

Lemma title_char_underscore (b : bool) (c : ascii) :
  Ascii.eqb (if Text.is_cased c
             then (if b then Text.lower c else Text.upper c) else c) "_"
  = Ascii.eqb c "_".
Proof. destruct b; destruct c as [[] [] [] [] [] [] [] []]; reflexivity. Qed.

Lemma title_char_idem (b : bool) (c : ascii) :
  let c' := if b then Text.lower c else Text.upper c in
  Text.is_cased c = true ->
  Text.is_cased c' = true /\ (if b then Text.lower c' else Text.upper c') = c'.
Proof. destruct b; destruct c as [[] [] [] [] [] [] [] []]; cbn; auto; discriminate. Qed.

Lemma title_from_underscore b s :
  has_underscore (Text.title_from b s) = has_underscore s.
Proof.
  revert b. induction s as [|c s IH]; intros b; [done|].
  cbn [Text.title_from]. pose proof (title_char_underscore b c) as Hc.
  destruct (Text.is_cased c); cbn [has_underscore]; rewrite IH;
    [by rewrite Hc | done].
Qed.

Lemma title_from_idem b s :
  Text.title_from b (Text.title_from b s) = Text.title_from b s.
Proof.
  revert b. induction s as [|c s IH]; intros b; [done|].
  cbn [Text.title_from]. destruct (Text.is_cased c) eqn:Hc.
  - destruct (title_char_idem b c Hc) as [Hc' Hfix].
    cbn [Text.title_from]. rewrite Hc', Hfix. by rewrite IH.
  - cbn [Text.title_from]. rewrite Hc. by rewrite IH.
Qed.

Lemma title_from_length b s :
  String.length (Text.title_from b s) = String.length s.
Proof.
  revert b. induction s as [|c s IH]; intros b; [done|].
  cbn [Text.title_from]. destruct (Text.is_cased c); cbn [String.length];
    by rewrite IH.
Qed.

Lemma replace_underscore_none s :
  has_underscore (Text.replace "_" " " s) = false.
Proof.
  induction s as [|c s IH]; [done|]. cbn [Text.replace has_underscore].
  rewrite IH. by destruct c as [[] [] [] [] [] [] [] []].
Qed.

Lemma replace_no_underscore s :
  has_underscore s = false -> Text.replace "_" " " s = s.
Proof.
  induction s as [|c s IH]; [done|]. cbn [Text.replace has_underscore].
  intros [Hc Hs]%orb_false_iff. by rewrite Hc, IH.
Qed.

Lemma replace_length s :
  String.length (Text.replace "_" " " s) = String.length s.
Proof. induction s as [|c s IH]; [done|]. cbn. by rewrite IH. Qed.

Lemma mood_cell_no_underscore t : has_underscore (mood_cell t) = false.
Proof.
  unfold mood_cell, Text.title.
  by rewrite title_from_underscore, replace_underscore_none.
Qed.

Lemma title_char_ascii (c : ascii) :
  (N_of_ascii c <? 128) = true ->
  (N_of_ascii (Text.upper c) <? 128) = true /\
  (N_of_ascii (Text.lower c) <? 128) = true.
Proof. by destruct c as [[] [] [] [] [] [] [] []]. Qed.

Lemma title_from_ascii b s :
  ascii_text s = true -> ascii_text (Text.title_from b s) = true.
Proof.
  revert b. induction s as [|c s IH]; intros b; [done|].
  cbn [ascii_text Text.title_from]. intros [Hc Hs]%andb_true_iff.
  destruct (title_char_ascii c Hc) as [Hup Hlow].
  destruct (Text.is_cased c); cbn [ascii_text]; rewrite IH by done;
    [destruct b; by rewrite ?Hup, ?Hlow | by rewrite Hc].
Qed.

Lemma replace_underscore_ascii s :
  ascii_text s = true -> ascii_text (Text.replace "_" " " s) = true.
Proof.
  induction s as [|c s IH]; [done|]. cbn [ascii_text Text.replace].
  intros [Hc Hs]%andb_true_iff. rewrite (IH Hs).
  destruct (Ascii.eqb c "_"); [done | by rewrite Hc].
Qed.

(** X18.  For a mood type of ASCII characters, the Mood cell of the export,
    [replace("_", " ").title()] of the mood type, is ASCII text as long as
    the mood type, has no underscore, and is unchanged by a second
    rendering. *)
Theorem mood_cell_shape t :
  ascii_text t = true ->
  ascii_text (mood_cell t) = true /\
  String.length (mood_cell t) = String.length t /\
  has_underscore (mood_cell t) = false /\
  mood_cell (mood_cell t) = mood_cell t.
Proof.
  intros Ht. split_and!.
  - unfold mood_cell, Text.title.
    by apply title_from_ascii, replace_underscore_ascii.
  - unfold mood_cell, Text.title. by rewrite title_from_length, replace_length.
  - apply mood_cell_no_underscore.
  - unfold mood_cell at 1.
    rewrite (replace_no_underscore _ (mood_cell_no_underscore t)).
    unfold mood_cell, Text.title. apply title_from_idem.
Qed.

Lemma mood_cell_shape_witness :
  mood_cell "very_happy" = "Very Happy" /\
  String.length (mood_cell "very_happy") = 10%nat /\
  mood_cell (mood_cell "very_happy") = mood_cell "very_happy".
Proof.
  destruct (mood_cell_shape "very_happy" eq_refl) as (_ & Hlen & _ & Hidem).
  split_and!; [reflexivity | exact Hlen | exact Hidem].
Defined.

Lemma option_label_is_cell m :
  m ∈ MOOD_OPTIONS -> label m = mood_cell (type m).
Proof.
  unfold MOOD_OPTIONS. intros Hm.
  repeat (apply elem_of_cons in Hm as [->|Hm]; [vm_compute; reflexivity|]).
  by apply elem_of_nil in Hm.
Qed.

(** X19.  For an entry whose mood type is one of the ten mood options, the
    label in the statistics is the Mood cell of the export: both views name
    the mood the same way.  The types of the options are pairwise
    distinct, so the option is the only one of that type. *)
Theorem known_mood_label_is_cell g t :
  _id g = VStr t ->
  (exists m, m ∈ MOOD_OPTIONS /\ type m = t) ->
  NoDup (map type MOOD_OPTIONS) /\
  exists s,
    stat_of g = Return s /\
    MoodStat.label s = mood_cell t /\
    forall m, m ∈ MOOD_OPTIONS -> type m = t ->
      MoodStat.label s = label m /\ MoodStat.emoji s = emoji m.
Proof.
  intros Hg (m & Hm & <-). split.
  { apply (bool_decide_unpack _). vm_compute. exact I. }
  exists (mood_stat (type m) (count g)). split_and!.
  - by apply stat_of_str.
  - unfold mood_stat. cbn [MoodStat.label].
    rewrite (mood_info_for_option m Hm). by apply option_label_is_cell.
  - intros m' Hm' E. unfold mood_stat. cbn [MoodStat.label MoodStat.emoji].
    by rewrite <- E, (mood_info_for_option m' Hm').
Qed.

Lemma known_mood_label_is_cell_witness :
  exists s,
    stat_of {| _id := VStr "very_sad"; count := 2 |} = Return s /\
    MoodStat.label s = "Very Sad".
Proof.
  destruct (known_mood_label_is_cell {| _id := VStr "very_sad"; count := 2 |}
              "very_sad") as (_ & s & H1 & H2 & _).
  - reflexivity.
  - eexists. split;
      [eapply (list_elem_of_lookup_2 _ 5%nat); reflexivity | reflexivity].
  - exists s. split; [exact H1 | exact H2].
Defined.



(** ** Cells of the export *)

Lemma is_special_false_comma c :
  Text.is_special c = false ->
  Ascii.eqb c Text.dquote = false /\ Ascii.eqb c Text.comma = false.
Proof.
  unfold Text.is_special. intros H.
  repeat (apply orb_false_iff in H as [H ?]). auto.
Qed.

Lemma separators_bare_field b f rest :
  Text.needs_quote f = false ->
  count_separators_from b (f +:+ rest) = count_separators_from b rest.
Proof.
  induction f as [|c f IH]; [done|]. rewrite append_cons.
  cbn [Text.needs_quote count_separators_from].
  intros [Hc Hf]%orb_false_iff. apply is_special_false_comma in Hc as [-> ->].
  cbn [andb]. auto.
Qed.

Lemma separators_escaped_field f rest :
  count_separators_from true (Text.escape f +:+ String Text.dquote rest)
  = count_separators_from false rest.
Proof.
  induction f as [|c f IH]; cbn [Text.escape].
  - rewrite append_nil. cbn [count_separators_from]. by rewrite Ascii.eqb_refl.
  - destruct (Ascii.eqb c Text.dquote) eqn:E; rewrite !append_cons;
      cbn [count_separators_from].
    + by rewrite !Ascii.eqb_refl.
    + rewrite E. by rewrite andb_false_r.
Qed.

Lemma separators_field f rest :
  count_separators_from false (Text.quote_field f +:+ rest)
  = count_separators_from false rest.
Proof.
  unfold Text.quote_field. destruct (Text.needs_quote f) eqn:E.
  - rewrite append_cons, append_assoc, append_cons, append_nil.
    cbn [count_separators_from].
    rewrite Ascii.eqb_refl. cbn [negb]. apply separators_escaped_field.
  - by apply separators_bare_field.
Qed.

Lemma separators_fields fs rest :
  count_separators_from false (Text.join_fields fs +:+ rest)
  = (pred (length fs) + count_separators_from false rest)%nat.
Proof.
  induction fs as [|f [|f' fs] IH]; [done|apply separators_field|].
  change (Text.join_fields (f :: f' :: fs))
    with (Text.quote_field f +:+ String Text.comma (Text.join_fields (f' :: fs))).
  rewrite append_assoc, separators_field, append_cons.
  cbn [count_separators_from].
  change (Ascii.eqb Text.comma Text.dquote) with false.
  rewrite Ascii.eqb_refl. cbn [andb negb]. cbv iota.
  rewrite IH. cbn [length pred]. lia.
Qed.

Lemma separators_row fs rest :
  count_separators_from false (Text.render_row fs +:+ rest)
  = (pred (length fs) + count_separators_from false rest)%nat.
Proof.
  assert (count_separators_from false ((Text.join_fields fs +:+ Text.CRLF) +:+ rest)
          = (pred (length fs) + count_separators_from false rest)%nat) as Hgen.
  { by rewrite append_assoc, separators_fields. }
  destruct fs as [|[|c f] [|f' fs]]; done.
Qed.

Lemma separators_csv_text rows :
  Forall (fun row => length row = 5%nat) rows ->
  count_separators (csv_text rows) = (4 * length rows)%nat.
Proof.
  unfold count_separators. induction 1 as [|row rows Hrow _ IH]; [done|].
  cbn [csv_text length]. rewrite separators_row, IH, Hrow. cbn [pred]. lia.
Qed.

Lemma export_row_length (d : Doc) row :
  export_row d = Return row -> length row = 5%nat.
Proof.
  unfold export_row, getitem, obind.
  repeat match goal with
         | |- context [match ?d' !! ?k' with _ => _ end] =>
             destruct (d' !! k') as [[]|]
         end; try discriminate; by intros [= <-].
Qed.

Lemma write_rows_cells output cursor s :
  write_rows output cursor = Return s ->
  exists rows, s = output +:+ csv_text rows /\ length rows = length cursor /\
               Forall (fun row => length row = 5%nat) rows.
Proof.
  revert output. induction cursor as [|mood cursor IH]; intros output;
    cbn [write_rows].
  - intros [= <-]. exists []. split_and!; [|done..]. cbn [csv_text].
    induction output as [|ch o IHo]; [done|]. rewrite append_cons. by f_equal.
  - destruct (export_row mood) as [row|] eqn:Hrow; cbn [obind]; [|discriminate].
    intros (rows & -> & Hlen & Hcells)%IH. exists (row :: rows). split_and!.
    + unfold Text.writerow. cbn [csv_text]. by rewrite append_assoc.
    + cbn [length]. by rewrite Hlen.
    + constructor; [by eapply export_row_length | done].
Qed.

(** X21.  Whenever [export_moods_csv] answers, for any collection of N
    documents, the text has exactly four cell separators outside quotes for
    each of its N+1 records: commas, quotes and line breaks typed into an
    emoji or notes never add or remove a column. *)
Theorem export_has_five_columns c resp :
  snd (export_moods_csv c) = Return resp ->
  count_separators (body resp) = (4 * S (length c))%nat.
Proof.
  unfold export_moods_csv. run_handler. cbn [snd].
  destruct (write_rows _ _) as [s|] eqn:E; cbn; [|discriminate].
  intros [= <-]. cbn [body].
  apply write_rows_cells in E as (rows & -> & Hlen & Hcells).
  unfold Text.writerow. rewrite append_nil.
  change (Text.render_row ?h +:+ csv_text rows) with (csv_text (h :: rows)).
  rewrite separators_csv_text by (by constructor).
  cbn [length]. by rewrite Hlen, find_sort_desc_length.
Qed.

Lemma export_has_five_columns_witness :
  exists resp,
    snd (export_moods_csv Example.two_entries) = Return resp /\
    count_separators (body resp) = 12%nat.
Proof.
  eexists. split; [vm_compute; reflexivity|].
  exact (export_has_five_columns Example.two_entries _ eq_refl).
Defined.
